(** * Online payment service integration (modules/s3/s3payments/base.py)

    A shallow embedding of the REST methods [S3Payments], the log writer
    [S3PaymentLog] and the adapter base class [S3PaymentService], with the
    properties of the payment service core proved against it.

    The Python code talks to an ambient context ([current.response],
    [current.log], the [fin_payment_log] table, the request clock) and to
    collaborators whose code lives elsewhere (the provider adapter's
    [get_access_token] and [check_subscription], urllib's [opener.open], the
    service configuration lookup).  Every such interaction is a [Call] node of
    a small interaction monad [prog]; [run] executes a program against a world
    and records the calls it makes, in order.  [exec] does the same in a
    context whose clock, log table and log file may fail, and [Checked.http]
    is [http] with the library calls that can raise. *)

From Stdlib Require Import ZArith Ascii String List Bool Lia.
From stdpp Require Import base strings gmap pretty.
Import ListNotations.

Local Open Scope Z_scope.
Local Open Scope string_scope.
Local Open Scope list_scope.

(* ===================================================================== *)
(** ** Python values *)
(* ===================================================================== *)

(** A response object as [opener.open] returns it: [f.code] and the body a
    [read()] yields. *)
Record HTTPResponse : Type := mkResponse {
  code : Z;
  body : string;
}.

(** The Python objects that travel through the three slots of [http()]'s
    result and through its [data] and [auth] arguments, and the exceptions the
    source raises or catches.  [HTTPError], [URLError], [NotImplementedError],
    [KeyError] and [ValueError] are the classes named in the source; [HTTP] is
    what [r.error] raises; [OtherError] stands for every other subclass of
    [Exception]. *)
#[warnings="-register-all"]
Inductive pyval : Type :=
| PyNone
| PyBool (b : bool)
| PyInt (z : Z)
| PyStr (s : string)
| PyBytes (s : string)
| PyList (l : list pyval)
| PyDict (d : list (string * pyval))
| PyExc (e : exn)
| PyStream (f : HTTPResponse)
with exn : Type :=
| NotImplementedError
| KeyError (msg : string)
| ValueError (msg : string)
| HTTPError (status : Z) (content : string)
| URLError (reason : pyval)
| HTTP (status : Z) (msg : string)
| OtherError (descr : string).

(** Python truth value testing. *)
Definition truthy (v : pyval) : bool :=
  match v with
  | PyNone => false
  | PyBool b => b
  | PyInt z => negb (Z.eqb z 0)
  | PyStr s | PyBytes s => negb (String.eqb s "")
  | PyList l => negb (Nat.eqb (length l) 0)
  | PyDict d => negb (Nat.eqb (length d) 0)
  | PyExc _ => true
  | PyStream _ => true
  end.

(** An attribute that holds a string or [None]. *)
Definition of_ostr (o : option string) : pyval :=
  match o with
  | Some s => PyStr s
  | None => PyNone
  end.

Definition truthy_str (o : option string) : bool := truthy (of_ostr o).

(** [v == s] for a string [s]. *)
Definition py_eq_str (v : pyval) (s : string) : bool :=
  match v with
  | PyStr s' => String.eqb s' s
  | _ => false
  end.

Definition is_none (v : pyval) : bool :=
  match v with
  | PyNone => true
  | _ => false
  end.

(** ["%s" % o] for a string or [None]. *)
Definition fmt_ostr (o : option string) : string :=
  match o with
  | Some s => s
  | None => "None"
  end.

(** [s.lstrip("/")] and [s.rstrip("/")]. *)
Fixpoint lstrip_slash (s : string) : string :=
  match s with
  | String "/"%char s' => lstrip_slash s'
  | _ => s
  end.

Definition rstrip_slash (s : string) : string :=
  String.rev (lstrip_slash (String.rev s)).

(** [sub in line], as a proposition. *)
Definition contains (line sub : string) : Prop :=
  exists pre post, line = pre +:+ sub +:+ post.

(** The outcome of a Python call: a value, or an exception on its way up. *)
Inductive result (A : Type) : Type :=
| Val (a : A)
| Exc (e : exn).
Arguments Val {A} a.
Arguments Exc {A} e.

(* ===================================================================== *)
(** ** Records of the data model *)
(* ===================================================================== *)

(** A [fin_payment_service] row, and the attributes the constructor of
    [S3PaymentService] copies from it. *)
Record ServiceRow : Type := mkServiceRow {
  row_id : Z;
  api_type : option string;
  row_base_url : option string;
  row_use_proxy : bool;
  row_proxy : option string;
  row_username : option string;
  row_password : option string;
  row_token_type : option string;
  row_access_token : option string;
  row_token_expiry_date : option Z;
}.

Record S3PaymentService : Type := mkService {
  service_id : Z;
  base_url : option string;
  use_proxy : bool;
  proxy : option string;
  username : option string;
  password : option string;
  token_type : option string;
  access_token : option string;
  token_expiry_date : option Z;
}.

(** [S3PaymentService.__init__]. *)
Definition init_service (row : ServiceRow) : S3PaymentService :=
  {| service_id := row_id row;
     base_url := row_base_url row;
     use_proxy := row_use_proxy row;
     proxy := row_proxy row;
     username := row_username row;
     password := row_password row;
     token_type := row_token_type row;
     access_token := row_access_token row;
     token_expiry_date := row_token_expiry_date row |}.

(** The record a request resolves to (a subscription). *)
Record Row : Type := mkRow {
  id : Z;
  rec_service_id : option Z;
  refno : option string;
}.

(** The part of an [S3Request] the methods read or write. *)
Record S3Request : Type := mkRequest {
  r_http : string;
  r_method : string;
  record : option Row;
  get_vars : gmap string pyval;
}.

(** A row of [fin_payment_log], with the values [insert] was given. *)
Record LogEntry : Type := mkLogEntry {
  date : Z;
  log_service_id : Z;
  log_action : option string;
  log_result : option string;
  log_reason : option string;
}.

(** [current.response]: the three notices a method can set. *)
Record Response : Type := mkResponseNotices {
  confirmation : option string;
  warning : option string;
  error : option string;
}.

Definition header : Type := string * string.

(** A [urllib2.Request]: target, method and the headers [add_header] put. *)
Record Request : Type := mkReq {
  req_url : string;
  req_method : string;
  req_headers : list header;
}.

Definition add_header (k v : string) (req : Request) : Request :=
  {| req_url := req_url req;
     req_method := req_method req;
     req_headers := req_headers req ++ [(k, v)] |}.

Inductive handler : Type :=
| ProxyHandler (protocol proxy_uri : string)
| HTTPBasicAuthHandler (realm : option string) (uri user passwd : string).

(** An [OpenerDirector]: its handlers and the headers it sends. *)
Record opener : Type := mkOpener {
  handlers : list handler;
  addheaders : list header;
}.

(** What a concrete adapter class can override of the methods modelled
    here: [verify_reference]. *)
Record adapter_class : Type := mkClass {
  class_name : string;
  cls_verify_reference : S3Request -> bool;
}.

(** An adapter instance: its class and the configuration it was built from. *)
Record PaymentAdapter : Type := mkAdapter {
  cls : adapter_class;
  svc : S3PaymentService;
}.

(* ===================================================================== *)
(** ** The interaction monad *)
(* ===================================================================== *)

(** The calls the code makes into its context.  The first group is the
    ambient [current] object and the database log table, the second the
    collaborators. *)
Inductive call : Type :=
| UtcNow                                  (* datetime.datetime.utcnow() *)
| RequestUtcNow                           (* current.request.utcnow *)
| LogInsert (e : LogEntry)                (* fin_payment_log.insert(...) *)
| LogError (line : string)                (* current.log.error(line) *)
| SetConfirmation (m : string)            (* current.response.confirmation = m *)
| SetWarning (m : string)                 (* current.response.warning = m *)
| SetError (m : string)                   (* current.response.error = m *)
| SelectService (sid : Z)                 (* resource.select([...], limit=1) *)
| GetAccessToken (self : S3PaymentService)
| OpenerOpen (o : opener) (req : Request) (data : option string)
| CheckSubscription (a : PaymentAdapter) (subscription_id : Z).

Definition answer (c : call) : Type :=
  match c with
  | UtcNow | RequestUtcNow => Z
  | LogInsert _ | LogError _ => unit
  | SetConfirmation _ | SetWarning _ | SetError _ => unit
  | SelectService _ => list ServiceRow
  | GetAccessToken _ => option string
  | OpenerOpen _ _ _ => HTTPResponse
  | CheckSubscription _ _ => option string
  end.

Inductive prog (A : Type) : Type :=
| Ret (a : A)
| Raise (e : exn)
| Call (c : call) (k : result (answer c) -> prog A).
Arguments Ret {A} a.
Arguments Raise {A} e.
Arguments Call {A} c k.

Fixpoint bind {A B : Type} (p : prog A) (f : A -> prog B) : prog B :=
  match p with
  | Ret a => f a
  | Raise e => Raise e
  | Call c k => Call c (fun r => bind (k r) f)
  end.

(** A call whose exception, if any, propagates. *)
Definition perform (c : call) : prog (answer c) :=
  Call c (fun r => match r with
                   | Val x => Ret x
                   | Exc e => Raise e
                   end).

(** [try: p  except <classes>: h], where [catches] tells the classes. *)
Fixpoint try_except {A : Type} (p : prog A) (catches : exn -> bool)
    (h : exn -> prog A) : prog A :=
  match p with
  | Ret a => Ret a
  | Raise e => if catches e then h e else Raise e
  | Call c k => Call c (fun r => try_except (k r) catches h)
  end.

(** [try: p  except Exception], keeping the outcome as a value. *)
Fixpoint attempt {A : Type} (p : prog A) : prog (result A) :=
  match p with
  | Ret a => Ret (Val a)
  | Raise e => Ret (Exc e)
  | Call c k => Call c (fun r => attempt (k r))
  end.

(** A computed outcome, returned or raised. *)
Definition lift {A : Type} (r : result A) : prog A :=
  match r with
  | Val a => Ret a
  | Exc e => Raise e
  end.

Declare Scope prog_scope.
Delimit Scope prog_scope with prog.
Notation "x <- p ;; q" := (bind p (fun x => q))
  (at level 100, p at next level, right associativity) : prog_scope.
Notation "p ;; q" := (bind p (fun _ => q))
  (at level 100, right associativity) : prog_scope.
Local Open Scope prog_scope.

(* ===================================================================== *)
(** ** Worlds and execution *)
(* ===================================================================== *)

Section Execution.

(** Everything beyond the ambient context the code touches itself: the
    provider, the network, the other database tables. *)
Variable E : Type.

Record world : Type := mkWorld {
  clock : Z;                          (* what utcnow() reads *)
  request_utcnow : Z;                 (* current.request.utcnow *)
  fin_payment_log : list LogEntry;    (* the primary store *)
  logfile : list string;              (* current.log, the secondary sink *)
  response : Response;                (* current.response *)
  ext : E;
}.

Definition with_log (f : list LogEntry -> list LogEntry) (w : world) : world :=
  {| clock := clock w; request_utcnow := request_utcnow w;
     fin_payment_log := f (fin_payment_log w); logfile := logfile w;
     response := response w; ext := ext w |}.

Definition with_logfile (f : list string -> list string) (w : world) : world :=
  {| clock := clock w; request_utcnow := request_utcnow w;
     fin_payment_log := fin_payment_log w; logfile := f (logfile w);
     response := response w; ext := ext w |}.

Definition with_response (f : Response -> Response) (w : world) : world :=
  {| clock := clock w; request_utcnow := request_utcnow w;
     fin_payment_log := fin_payment_log w; logfile := logfile w;
     response := f (response w); ext := ext w |}.

Definition set_confirmation (m : string) (p : Response) : Response :=
  {| confirmation := Some m; warning := warning p; error := error p |}.
Definition set_warning (m : string) (p : Response) : Response :=
  {| confirmation := confirmation p; warning := Some m; error := error p |}.
Definition set_error (m : string) (p : Response) : Response :=
  {| confirmation := confirmation p; warning := warning p; error := Some m |}.

(** How the collaborators answer.  An answer may be an exception, and a
    collaborator may change the world (a log entry written by
    [get_access_token], a status stored by [check_subscription]). *)
Variable oracle : forall c : call, world -> result (answer c) * world.

(** The ambient calls have the fixed meaning of the context they stand
    for; the others are put to the oracle. *)
Definition handle (c : call) : world -> result (answer c) * world :=
  match c as c0 return world -> result (answer c0) * world with
  | UtcNow => fun w => (Val (clock w), w)
  | RequestUtcNow => fun w => (Val (request_utcnow w), w)
  | LogInsert e => fun w => (Val tt, with_log (fun l => l ++ [e]) w)
  | LogError line => fun w => (Val tt, with_logfile (fun l => l ++ [line]) w)
  | SetConfirmation m => fun w => (Val tt, with_response (set_confirmation m) w)
  | SetWarning m => fun w => (Val tt, with_response (set_warning m) w)
  | SetError m => fun w => (Val tt, with_response (set_error m) w)
  | c' => oracle c'
  end.

(** Running a program: its outcome, the world it leaves and the calls it
    made, oldest first. *)
Fixpoint run {A : Type} (p : prog A) (w : world)
    : result A * world * list call :=
  match p with
  | Ret a => (Val a, w, [])
  | Raise e => (Exc e, w, [])
  | Call c k =>
      let '(r, w1) := handle c w in
      let '(res, w2, t) := run (k r) w1 in
      (res, w2, c :: t)
  end.

Definition outcome {A : Type} (x : result A * world * list call) : result A :=
  fst (fst x).
Definition final {A : Type} (x : result A * world * list call) : world :=
  snd (fst x).
Definition trace {A : Type} (x : result A * world * list call) : list call :=
  snd x.

Lemma run_bind {A B : Type} (p : prog A) (f : A -> prog B) (w : world) :
  run (bind p f) w =
  match run p w with
  | (Val a, w1, t1) => let '(res, w2, t2) := run (f a) w1 in (res, w2, t1 ++ t2)
  | (Exc e, w1, t1) => (Exc e, w1, t1)
  end.
Proof.
  revert w. induction p as [a | e | c k IH]; intros w; simpl.
  - destruct (run (f a) w) as [[res w2] t2]. reflexivity.
  - reflexivity.
  - destruct (handle c w) as [r w1]. rewrite IH.
    destruct (run (k r) w1) as [[[a | e] w2] t1]; simpl.
    + destruct (run (f a) w2) as [[res w3] t2]. reflexivity.
    + reflexivity.
Qed.

End Execution.

Arguments world E : clear implicits.
Arguments clock {E} w.
Arguments request_utcnow {E} w.
Arguments fin_payment_log {E} w.
Arguments logfile {E} w.
Arguments response {E} w.
Arguments ext {E} w.
Arguments with_log {E} f w.
Arguments with_logfile {E} f w.
Arguments with_response {E} f w.
Arguments handle {E} oracle c w.
Arguments run {E} oracle {A} p w.
Arguments outcome {E A} x.
Arguments final {E A} x.
Arguments trace {E A} x.
Arguments run_bind {E} oracle {A B} p f w.

(** Running a program in a context that answers every call itself, the
    ambient ones included: the clock, the log table or the log file may
    then fail.  [run] is [exec] at [handle], the context in which they do
    not. *)
Section AnyContext.

Context {E : Type}.
Variable answers : forall c : call, world E -> result (answer c) * world E.

Fixpoint exec {A : Type} (p : prog A) (w : world E)
    : result A * world E * list call :=
  match p with
  | Ret a => (Val a, w, [])
  | Raise e => (Exc e, w, [])
  | Call c k =>
      let '(r, w1) := answers c w in
      let '(res, w2, t) := exec (k r) w1 in
      (res, w2, c :: t)
  end.

End AnyContext.

Lemma run_exec {E A : Type}
    (oracle : forall c : call, world E -> result (answer c) * world E)
    (p : prog A) (w : world E) :
  run oracle p w = exec (handle oracle) p w.
Proof.
  revert w. induction p as [a | e | c k IH]; intros w; simpl;
    [reflexivity | reflexivity |].
  destruct (handle oracle c w) as [r w1]. rewrite IH. reflexivity.
Qed.

(* ===================================================================== *)
(** ** The program *)
(* ===================================================================== *)

(** *** S3PaymentLog *)

(** The log writer of a payment service; the object holds nothing but the
    [service_id] its constructor was given. *)
Module S3PaymentLog.

(** [S3PaymentLog.write]. *)
Definition write (service_id : Z) (action result reason : option string)
    : prog unit :=
  if negb (truthy_str action) || negb (truthy_str result) then Ret tt
  else
    now <- perform UtcNow ;;
    perform (LogInsert {| date := now;
                          log_service_id := service_id;
                          log_action := action;
                          log_result := result;
                          log_reason := reason |}) ;;
    if py_eq_str (of_ostr result) "ERROR" || py_eq_str (of_ostr result) "FATAL"
    then
      let msg :=
        if truthy_str reason
        then "'" +:+ fmt_ostr action +:+ "' failed [" +:+ fmt_ostr reason +:+ "]"
        else "'" +:+ fmt_ostr action +:+ "' failed" in
      perform (LogError ("Payment Service #" +:+ pretty service_id +:+ ": " +:+ msg))
    else Ret tt.

(** The shortcuts. *)
Definition info (service_id : Z) (action reason : option string) : prog unit :=
  write service_id action (Some "INFO") reason.
Definition success (service_id : Z) (action reason : option string) : prog unit :=
  write service_id action (Some "SUCCESS") reason.
Definition warning (service_id : Z) (action reason : option string) : prog unit :=
  write service_id action (Some "WARNING") reason.
Definition error (service_id : Z) (action reason : option string) : prog unit :=
  write service_id action (Some "ERROR") reason.
Definition fatal (service_id : Z) (action reason : option string) : prog unit :=
  write service_id action (Some "FATAL") reason.

End S3PaymentLog.

(** Library functions and objects of the code base that the module uses
    and that are defined elsewhere. *)
Class Library : Type := mkLibrary {
  T : string -> string;                       (* current.T *)
  r_url : S3Request -> string -> string;      (* r.url(method=m) *)
  urlencode : list (string * string) -> string;
  json_dumps : pyval -> string;               (* json.dumps *)
  json_load : HTTPResponse -> result pyval;   (* json.load *)
  JSONERRORS : exn -> bool;                   (* s3validators.JSONERRORS *)
  s3_str : pyval -> string;                   (* s3utils.s3_str *)
  b64encode : string -> string;               (* base64.b64encode *)
  req_type : Request -> string;               (* req.type *)
  default_addheaders : list header;           (* those build_opener() sets *)
  PayPalAdapter : adapter_class;              (* .paypal.PayPalAdapter *)
}.

Section Program.

Context {L : Library}.

(** *** S3PaymentService *)

(** [S3PaymentService.verify_reference], the default of the base class. *)
Definition verify_reference (r : S3Request) : bool :=
  match record r with
  | None => false
  | Some rec =>
      if negb (truthy_str (refno rec)) then false
      else
        let refno' := default PyNone (get_vars r !! "subscription_id") in
        py_eq_str refno' (fmt_ostr (refno rec))
  end.

Definition is_NotImplementedError (e : exn) : bool :=
  match e with
  | NotImplementedError => true
  | _ => false
  end.

(** [S3PaymentService._http_opener]. *)
Definition _http_opener (self : S3PaymentService) (req : Request)
    (headers : list header) (auth : pyval) : prog opener :=
  let addheaders := headers in
  let handlers :=
    if truthy_str (proxy self) && use_proxy self
    then [ProxyHandler (req_type req) (fmt_ostr (proxy self))]
    else [] in
  let username := username self in
  let password := password self in
  addheaders <-
    (if py_eq_str auth "Basic" then
       if truthy_str username && truthy_str password then
         let base64string :=
           b64encode (fmt_ostr username +:+ ":" +:+ fmt_ostr password) in
         Ret (addheaders ++
              [("Authorization", "Basic " +:+ s3_str (PyBytes base64string))])
       else Ret addheaders
     else if py_eq_str auth "Token" then
       let token := access_token self in
       let token_type :=
         if truthy_str (token_type self) then fmt_ostr (token_type self)
         else "Bearer" in
       let expiry_date := token_expiry_date self in
       stale <-
         (if negb (truthy_str token) then Ret true
          else match expiry_date with
               | None => Ret false
               | Some d => now <- perform RequestUtcNow ;; Ret (Z.leb d now)
               end) ;;
       token <-
         (if stale : bool then
            try_except (perform (GetAccessToken self))
                       is_NotImplementedError (fun _ => Ret None)
          else Ret token) ;;
       if truthy_str token then
         Ret (addheaders ++
              [("Authorization", token_type +:+ " " +:+ fmt_ostr token)])
       else Ret addheaders
     else Ret addheaders) ;;
  let handlers :=
    if truthy auth && truthy_str username && truthy_str password
    then handlers ++
         [HTTPBasicAuthHandler None (req_url req)
                               (fmt_ostr username) (fmt_ostr password)]
    else handlers in
  Ret {| handlers := handlers;
         addheaders := match addheaders with
                       | [] => default_addheaders
                       | _ => addheaders
                       end |}.

(** The request [http()] builds before it asks for an opener, with the
    data it is going to send (the branch for Python 3; the one for Python 2
    sets the same target and method). *)
Definition http_request (self : S3PaymentService) (method : string)
    (path : option string) (args : list (string * string)) (data : pyval)
    (encode decode : string) : Request * option string :=
  let url := rstrip_slash (fmt_ostr (base_url self)) in
  let url :=
    if truthy_str path then url +:+ "/" +:+ lstrip_slash (fmt_ostr path)
    else url in
  let url :=
    match args with
    | [] => url
    | _ => url +:+ "?" +:+ urlencode args
    end in
  let req := {| req_url := url; req_method := method; req_headers := [] |} in
  let '(request_data, req) :=
    if String.eqb method "GET" then (None, req)
    else if truthy data then
      if String.eqb encode "json" then
        (Some (json_dumps data),
         add_header "Content-Type" "application/json" req)
      else if String.eqb encode "text" then
        (Some (s3_str data),
         add_header "Content-Type" "text/plain; charset=UTF-8" req)
      else
        (Some (s3_str data),
         add_header "Content-Type" "application/octet-stream" req)
    else (None, req) in
  let req :=
    if String.eqb decode "json" then add_header "Accept" "application/json" req
    else add_header "Accept" "*/*" req in
  (req, request_data).

(** The three slots [http()] fills from what [opener.open] did: the
    [except] clauses and the [else] branch of its [try] statement.  The
    only exception that leaves it is one [json.load] raises outside
    [JSONERRORS]. *)
Definition http_response (decode : string) (opened : result HTTPResponse)
    : result (pyval * pyval * pyval) :=
  match opened with
  | Exc (HTTPError status content) =>
      Val (PyNone, PyInt status, PyStr (s3_str (PyBytes content)))
  | Exc (URLError reason) =>
      Val (PyNone, PyNone,
           if truthy reason then reason else PyStr "Unknown network error")
  | Exc e =>
      Val (PyNone, PyNone, PyExc e)
  | Val f =>
      let status := PyInt (code f) in
      if String.eqb decode "json" then
        match json_load f with
        | Val output => Val (output, status, PyNone)
        | Exc e =>
            if JSONERRORS e then Val (PyNone, status, PyExc e) else Exc e
        end
      else if String.eqb decode "text" then
        Val (PyStr (s3_str (PyBytes (body f))), status, PyNone)
      else
        Val (PyStream f, status, PyNone)
  end.

(** [S3PaymentService.http], where the library calls it makes succeed;
    [Checked.http] below has those that raise. *)
Definition http (self : S3PaymentService) (method : string)
    (path : option string) (args : list (string * string)) (data : pyval)
    (headers : list header) (auth : pyval) (encode decode : string)
    : prog (pyval * pyval * pyval) :=
  if negb (truthy_str (base_url self)) then
    Ret (PyNone, PyNone, PyStr "No base URL set")
  else
    let req := fst (http_request self method path args data encode decode) in
    let request_data :=
      snd (http_request self method path args data encode decode) in
    opener <- _http_opener self req headers auth ;;
    opened <- attempt (perform (OpenerOpen opener req request_data)) ;;
    lift (http_response decode opened).

(** The registry of adapter classes in [S3PaymentService.adapter]. *)
Definition adapters : gmap string adapter_class :=
  {[ "PAYPAL" := PayPalAdapter ]}.

(** [S3PaymentService.adapter], the factory method. *)
Definition adapter (service_id : Z) : prog PaymentAdapter :=
  rows <- perform (SelectService service_id) ;;
  match rows with
  | [] =>
      Raise (KeyError ("Payment service configuration #" +:+
                       pretty service_id +:+ " not found"))
  | row :: _ =>
      match api_type row ≫= (adapters !!.) with
      | None => Raise (ValueError ("Invalid API type: " +:+ fmt_ostr (api_type row)))
      | Some class => Ret {| cls := class; svc := init_service row |}
      end
  end.

(** *** S3Payments *)

(** [r.error(status, message)]: leaves the method with an HTTP status. *)
Definition r_error {A : Type} (status : Z) (message : string) : prog A :=
  Raise (HTTP status message).

Definition is_KeyError_or_ValueError (e : exn) : bool :=
  match e with
  | KeyError _ | ValueError _ => true
  | _ => false
  end.

(** What a method hands back: its output dict, the request as it left
    it and [self.next]. *)
Record MethodResult : Type := mkMethodResult {
  output : list (string * pyval);
  r_after : S3Request;
  next : string;
}.

Definition set_http (v : string) (r : S3Request) : S3Request :=
  {| r_http := v; r_method := r_method r; record := record r;
     get_vars := get_vars r |}.

(** [S3Payments.confirm_subscription]. *)
Definition confirm_subscription (r : S3Request) : prog MethodResult :=
  match record r with
  | None => r_error 405 "Invalid record"
  | Some rec =>
      match rec_service_id rec with
      | None => r_error 405 "Invalid record"
      | Some sid =>
          if Z.eqb sid 0 then r_error 405 "Invalid record"
          else
            a <- try_except (adapter sid) is_KeyError_or_ValueError
                   (fun _ => r_error 405 "Invalid payment service") ;;
            if negb (cls_verify_reference (cls a) r)
            then r_error 405 "Invalid reference"
            else
              status <- perform (CheckSubscription a (id rec)) ;;
              (if py_eq_str (of_ostr status) "ACTIVE" then
                 perform (SetConfirmation (T "Subscription activated"))
               else if py_eq_str (of_ostr status) "APPROVED" then
                 Ret tt
               else if truthy_str status then
                 perform (SetWarning (T "Subscription inactive"))
               else
                 perform (SetError (T "Could not verify subscription status"))) ;;
              let r := set_http "POST" r in
              Ret {| output := []; r_after := r; next := r_url r "" |}
      end
  end.

End Program.

(* ===================================================================== *)
(** ** [http()] with library calls that raise *)
(* ===================================================================== *)

(** The functions of [Library] are total: they stand for library calls
    that succeed.  Some of the calls [http()] makes can raise instead, and
    [http()] guards none of them: [urlencode(args)];
    [urllib2.Request(url = url, method = method)], for a URL without a
    scheme; [json.dumps(data)], for data that cannot be serialised;
    [s3_str], for bytes that cannot be read or decoded, both on the request
    data and in [s3_str(e.read())] and [s3_str(f.read())].  [Faults] tells
    for each of them the exception it raises on a given argument, if
    any. *)
Class Faults : Type := mkFaults {
  urlencode_fault : list (string * string) -> option exn;
  Request_fault : string -> string -> option exn;   (* url, method *)
  json_dumps_fault : pyval -> option exn;
  s3_str_fault : pyval -> option exn;
}.

(** A library call: the exception it raises on this argument, or else its
    value. *)
Definition checked {A B : Type} (fault : A -> option exn) (f : A -> B)
    (a : A) : result B :=
  match fault a with
  | Some e => Exc e
  | None => Val (f a)
  end.

(** Sequencing of outcomes: an exception ends the computation. *)
Definition and_then {A B : Type} (r : result A) (f : A -> result B)
    : result B :=
  match r with
  | Val a => f a
  | Exc e => Exc e
  end.

Module Checked.

Section Program.

Context {L : Library} {F : Faults}.

(** Lines 418-451 of [http()]: the request and the data to send, or the
    exception that leaves [http()] before it asks for an opener. *)
Definition http_request (self : S3PaymentService) (method : string)
    (path : option string) (args : list (string * string)) (data : pyval)
    (encode decode : string) : result (Request * option string) :=
  let url := rstrip_slash (fmt_ostr (base_url self)) in
  let url :=
    if truthy_str path then url +:+ "/" +:+ lstrip_slash (fmt_ostr path)
    else url in
  and_then
    match args with
    | [] => Val url
    | _ => and_then (checked urlencode_fault urlencode args)
                    (fun query => Val (url +:+ "?" +:+ query))
    end (fun url =>
  and_then
    (checked (Request_fault url)
       (fun method =>
          {| req_url := url; req_method := method; req_headers := [] |})
       method) (fun req =>
  and_then
    (if String.eqb method "GET" then Val (None, req)
     else if truthy data then
       if String.eqb encode "json" then
         and_then (checked json_dumps_fault json_dumps data) (fun d =>
         Val (Some d, add_header "Content-Type" "application/json" req))
       else if String.eqb encode "text" then
         and_then (checked s3_str_fault s3_str data) (fun d =>
         Val (Some d,
              add_header "Content-Type" "text/plain; charset=UTF-8" req))
       else
         and_then (checked s3_str_fault s3_str data) (fun d =>
         Val (Some d,
              add_header "Content-Type" "application/octet-stream" req))
     else Val (None, req)) (fun '(request_data, req) =>
  let req :=
    if String.eqb decode "json" then add_header "Accept" "application/json" req
    else add_header "Accept" "*/*" req in
  Val (req, request_data)))).

(** Lines 457-484 of [http()]: the three slots it fills from what
    [opener.open] did, or the exception that leaves the [try] statement:
    one that [s3_str] raises on the body of an [HTTPError] or of a text
    response, or one that [json.load] raises outside [JSONERRORS]. *)
Definition http_response (decode : string) (opened : result HTTPResponse)
    : result (pyval * pyval * pyval) :=
  match opened with
  | Exc (HTTPError status content) =>
      and_then (checked s3_str_fault s3_str (PyBytes content)) (fun error =>
      Val (PyNone, PyInt status, PyStr error))
  | Exc (URLError reason) =>
      Val (PyNone, PyNone,
           if truthy reason then reason else PyStr "Unknown network error")
  | Exc e =>
      Val (PyNone, PyNone, PyExc e)
  | Val f =>
      let status := PyInt (code f) in
      if String.eqb decode "json" then
        match json_load f with
        | Val output => Val (output, status, PyNone)
        | Exc e =>
            if JSONERRORS e then Val (PyNone, status, PyExc e) else Exc e
        end
      else if String.eqb decode "text" then
        and_then (checked s3_str_fault s3_str (PyBytes (body f))) (fun output =>
        Val (PyStr output, status, PyNone))
      else
        Val (PyStream f, status, PyNone)
  end.

(** [S3PaymentService.http], with every exception that can leave it. *)
Definition http (self : S3PaymentService) (method : string)
    (path : option string) (args : list (string * string)) (data : pyval)
    (headers : list header) (auth : pyval) (encode decode : string)
    : prog (pyval * pyval * pyval) :=
  if negb (truthy_str (base_url self)) then
    Ret (PyNone, PyNone, PyStr "No base URL set")
  else
    built <- lift (http_request self method path args data encode decode) ;;
    let req := fst built in
    let request_data := snd built in
    opener <- _http_opener self req headers auth ;;
    opened <- attempt (perform (OpenerOpen opener req request_data)) ;;
    lift (http_response decode opened).

End Program.

End Checked.

(* ===================================================================== *)
(** ** The dispatcher and the database utilities *)
(* ===================================================================== *)

Section Dispatch.

Context {L : Library}.

(** [current.ERROR.BAD_METHOD], and the sibling method
    [S3Payments.cancel_subscription] that [apply_method] hands a cancel
    request to. *)
Variable BAD_METHOD : string.
Variable cancel_subscription : S3Request -> prog MethodResult.

(** [S3Payments.apply_method]. *)
Definition apply_method (r : S3Request) : prog MethodResult :=
  if String.eqb (r_http r) "GET" then
    let method := r_method r in
    if String.eqb method "confirm" then confirm_subscription r
    else if String.eqb method "cancel" then cancel_subscription r
    else r_error 405 BAD_METHOD
  else r_error 405 BAD_METHOD.

End Dispatch.

(** The tables the utility functions of [S3PaymentService] query.  A column
    that may be NULL is an [option]; rows stand in the order in which the
    database returns them. *)
Record ServiceLink : Type := mkServiceLink {
  link_item_id : option Z;          (* product_id, or plan_id *)
  link_service_id : option Z;
  link_deleted : option bool;
  is_registered : option bool;
}.

Record PEntity : Type := mkPEntity {
  pe_id : Z;
  pe_deleted : option bool;
  instance_type : string;
}.

Record Organisation : Type := mkOrganisation {
  org_id : Z;
  org_pe_id : option Z;
  org_deleted : option bool;
  org_name : option string;
}.

Record Person : Type := mkPerson {
  person_pe_id : option Z;
  person_deleted : option bool;
  first_name : option string;
  last_name : option string;
}.

Record Contact : Type := mkContact {
  contact_pe_id : option Z;
  contact_method : option string;
  contact_deleted : option bool;
  access : option Z;
  priority : Z;
  value : option string;
}.

Record Product : Type := mkProduct {
  product_id : Z;
  organisation_id : option Z;
  product_deleted : option bool;
}.

Record database : Type := mkDatabase {
  fin_product_service : list ServiceLink;
  fin_subscription_plan_service : list ServiceLink;
  pr_pentity : list PEntity;
  org_organisation : list Organisation;
  pr_person : list Person;
  pr_contact : list Contact;
  fin_product : list Product;
  s3db_tables : gset string;          (* the names [s3db.table] resolves *)
  pr_contacts_tabs : list string;     (* get_pr_contacts_tabs() *)
}.

(** [column == z] and [column == False] in a query: NULL matches neither. *)
Definition col_eq (column : option Z) (z : Z) : bool :=
  match column with
  | Some z' => Z.eqb z' z
  | None => false
  end.

Definition col_is_false (column : option bool) : bool :=
  match column with
  | Some b => negb b
  | None => false
  end.

Definition col_eq_str (column : option string) (s : string) : bool :=
  match column with
  | Some s' => String.eqb s' s
  | None => false
  end.

Definition of_obool (o : option bool) : pyval :=
  match o with
  | Some b => PyBool b
  | None => PyNone
  end.

(** [db(query).select(..., limitby=(0, 1)).first()]. *)
Definition select_first {R : Type} (query : R -> bool) (table : list R)
    : option R :=
  head (filter query table).

(** [S3PaymentService.has_product]. *)
Definition has_product (db : database) (self : S3PaymentService)
    (product : Z) : pyval :=
  let query row :=
    col_eq (link_item_id row) product &&
    col_eq (link_service_id row) (service_id self) &&
    col_is_false (link_deleted row) in
  match select_first query (fin_product_service db) with
  | Some row => of_obool (is_registered row)
  | None => PyBool false
  end.

(** [S3PaymentService.has_subscription_plan]. *)
Definition has_subscription_plan (db : database) (self : S3PaymentService)
    (plan : Z) : pyval :=
  let query row :=
    col_eq (link_item_id row) plan &&
    col_eq (link_service_id row) (service_id self) &&
    col_is_false (link_deleted row) in
  match select_first query (fin_subscription_plan_service db) with
  | Some row => of_obool (is_registered row)
  | None => PyBool false
  end.

(** [select(..., orderby=priority, limitby=(0, 1)).first()]: a row of least
    priority, the earliest of them. *)
Fixpoint first_by_priority (rows : list Contact) : option Contact :=
  match rows with
  | [] => None
  | c :: rest =>
      match first_by_priority rest with
      | Some c' => if Z.ltb (priority c') (priority c) then Some c' else Some c
      | None => Some c
      end
  end.

(** What reading an attribute of [None] raises. *)
Definition AttributeError (attribute : string) : exn :=
  OtherError ("AttributeError: 'NoneType' object has no attribute '" +:+
              attribute +:+ "'").

(** The query for the email address in [get_subscriber_info]. *)
Definition email_query (db : database) (subscriber : Z) (c : Contact) : bool :=
  col_eq (contact_pe_id c) subscriber &&
  col_eq_str (contact_method c) "EMAIL" &&
  col_is_false (contact_deleted c) &&
  (if bool_decide ("private" ∈ pr_contacts_tabs db)
   then match access c with
        | Some a => Z.eqb a 2
        | None => true
        end
   else true).

(** [S3PaymentService.get_subscriber_info]: the pair [(info, error)], or
    the exception that leaves the function. *)
Definition get_subscriber_info (db : database) (subscriber : Z)
    : result (option (gmap string pyval) * option string) :=
  let entity :=
    select_first (fun e => Z.eqb (pe_id e) subscriber && col_is_false (pe_deleted e))
                 (pr_pentity db) in
  match entity with
  | None => Val (None, Some ("Unknown subscriber #" +:+ pretty subscriber))
  | Some entity =>
      let subscriber_type := instance_type entity in
      if negb (bool_decide (subscriber_type ∈ s3db_tables db)) then
        Val (None, Some "Unknown subscriber type")
      else
        let named : result (option (gmap string pyval)) :=
          if String.eqb subscriber_type "org_organisation" then
            match select_first
                    (fun o => col_eq (org_pe_id o) subscriber &&
                              col_is_false (org_deleted o))
                    (org_organisation db) with
            | Some row => Val (Some (<["first_name" := of_ostr (org_name row)]> ∅))
            | None => Exc (AttributeError "name")
            end
          else if String.eqb subscriber_type "pr_person" then
            match select_first
                    (fun q => col_eq (person_pe_id q) subscriber &&
                              col_is_false (person_deleted q))
                    (pr_person db) with
            | Some row =>
                Val (Some (<["last_name" := of_ostr (last_name row)]>
                             (<["first_name" := of_ostr (first_name row)]> ∅)))
            | None => Exc (AttributeError "first_name")
            end
          else Val None in
        match named with
        | Exc e => Exc e
        | Val None =>
            Val (None, Some ("Invalid subscriber type " +:+ subscriber_type))
        | Val (Some info) =>
            match first_by_priority
                    (filter (email_query db subscriber) (pr_contact db)) with
            | Some row => Val (Some (<["email" := of_ostr (value row)]> info), None)
            | None => Val (Some info, None)
            end
        end
  end.

(** [S3PaymentService.get_merchant_name]: the join of [fin_product] with
    [org_organisation]. *)
Definition get_merchant_name (db : database) (product : Z) : option string :=
  let joined :=
    p ← fin_product db;
    o ← org_organisation db;
    if Z.eqb (product_id p) product &&
       col_eq (organisation_id p) (org_id o) &&
       col_is_false (product_deleted p)
    then [o] else [] in
  match head joined with
  | Some row => org_name row
  | None => None
  end.

(** A link row of [item] and [service] that is not deleted. *)
Definition links (row : ServiceLink) (item service : Z) : Prop :=
  link_item_id row = Some item /\ link_service_id row = Some service /\
  link_deleted row = Some false.

(** The database after [row] was added to [fin_product_service]. *)
Definition add_product_link (row : ServiceLink) (db : database) : database :=
  {| fin_product_service := fin_product_service db ++ [row];
     fin_subscription_plan_service := fin_subscription_plan_service db;
     pr_pentity := pr_pentity db;
     org_organisation := org_organisation db;
     pr_person := pr_person db;
     pr_contact := pr_contact db;
     fin_product := fin_product db;
     s3db_tables := s3db_tables db;
     pr_contacts_tabs := pr_contacts_tabs db |}.

(* ===================================================================== *)
(** ** What the properties observe *)
(* ===================================================================== *)

(** The line [write] hands to [current.log.error]. *)
Definition failure_line (sid : Z) (action : string) (reason : option string)
    : string :=
  "Payment Service #" +:+ pretty sid +:+ ": " +:+
  (if truthy_str reason
   then "'" +:+ action +:+ "' failed [" +:+ fmt_ostr reason +:+ "]"
   else "'" +:+ action +:+ "' failed").

Definition is_GetAccessToken (c : call) : bool :=
  match c with
  | GetAccessToken _ => true
  | _ => false
  end.

Definition is_OpenerOpen (c : call) : bool :=
  match c with
  | OpenerOpen _ _ _ => true
  | _ => false
  end.

(** The number of refresh attempts among the calls of a run. *)
Definition refreshes (t : list call) : nat :=
  length (filter is_GetAccessToken t).

(** No request has gone out among these calls. *)
Definition nothing_sent (t : list call) : Prop :=
  forallb (fun c => negb (is_OpenerOpen c)) t = true.

(** A slot of [http()]'s result that holds something, i.e. is not [None]. *)
Definition populated (v : pyval) : bool := negb (is_none v).

(** The cached token needs a refresh at time [now]: there is none, or it
    has an expiry date that is at or before [now]. *)
Definition stale (self : S3PaymentService) (now : Z) : Prop :=
  access_token self = None \/ access_token self = Some "" \/
  exists d, token_expiry_date self = Some d /\ d <= now.

(** The calls that precede the refresh of a stale token: the request
    clock is read when there is a token whose expiry date is to be checked. *)
Definition clock_reads (self : S3PaymentService) : list call :=
  if truthy_str (access_token self) then [RequestUtcNow] else [].

Section Observables.

Context {L : Library}.

(** The opener [_http_opener] returns once the headers to add are
    settled: proxy handler, 401 handler, and the headers, or the opener's
    own if there are none. *)
Definition opener_with (self : S3PaymentService) (req : Request)
    (auth : pyval) (addheaders : list header) : opener :=
  {| handlers :=
       (if truthy_str (proxy self) && use_proxy self
        then [ProxyHandler (req_type req) (fmt_ostr (proxy self))]
        else []) ++
       (if truthy auth && truthy_str (username self) &&
           truthy_str (password self)
        then [HTTPBasicAuthHandler None (req_url req)
                (fmt_ostr (username self)) (fmt_ostr (password self))]
        else []);
     addheaders := match addheaders with
                   | [] => default_addheaders
                   | _ => addheaders
                   end |}.

(** The Authorization header of token authentication. *)
Definition token_header (self : S3PaymentService) (token : string) : header :=
  ("Authorization",
   (if truthy_str (token_type self) then fmt_ostr (token_type self)
    else "Bearer") +:+ " " +:+ token).

(** The Authorization header of Basic authentication. *)
Definition basic_header (self : S3PaymentService) : header :=
  ("Authorization",
   "Basic " +:+
   s3_str (PyBytes (b64encode (fmt_ostr (username self) +:+ ":" +:+
                               fmt_ostr (password self))))).

End Observables.

(* ===================================================================== *)
(** ** A concrete deployment, for running the code *)
(* ===================================================================== *)

Module Fixture.

(** [s3_str] on the values it meets here: text stays text, bytes are
    decoded. *)
Definition str_of (v : pyval) : string :=
  match v with
  | PyStr s | PyBytes s => s
  | _ => ""
  end.

(** [json.load] on the three bodies the runs below receive. *)
Definition load (f : HTTPResponse) : result pyval :=
  if String.eqb (body f) "null" then Val PyNone
  else if String.eqb (body f) "{}" then Val (PyDict [])
  else Exc (ValueError "Expecting value").

Definition json_errors (e : exn) : bool :=
  match e with
  | KeyError _ | ValueError _ => true
  | _ => false
  end.

#[local] Instance library : Library :=
  {| T := fun s => s;
     r_url := fun _ _ => "/fin/subscription";
     urlencode := fun _ => "";
     json_dumps := fun _ => "{}";
     json_load := load;
     JSONERRORS := json_errors;
     s3_str := str_of;
     b64encode := fun s => s;
     req_type := fun _ => "https";
     default_addheaders := [("User-agent", "Python-urllib/3.8")];
     PayPalAdapter := {| class_name := "PayPalAdapter";
                         cls_verify_reference := verify_reference |} |}.

(** A service configuration: token ["T1"], valid until 2000. *)
Definition service : S3PaymentService :=
  {| service_id := 7;
     base_url := Some "https://api.example.org/";
     use_proxy := false;
     proxy := None;
     username := Some "client";
     password := Some "secret";
     token_type := None;
     access_token := Some "T1";
     token_expiry_date := Some 2000 |}.

Definition with_token (tok : option string) (expiry : option Z)
    (s : S3PaymentService) : S3PaymentService :=
  {| service_id := service_id s; base_url := base_url s;
     use_proxy := use_proxy s; proxy := proxy s;
     username := username s; password := password s;
     token_type := token_type s;
     access_token := tok; token_expiry_date := expiry |}.

Definition without_base_url (s : S3PaymentService) : S3PaymentService :=
  {| service_id := service_id s; base_url := None;
     use_proxy := use_proxy s; proxy := proxy s;
     username := username s; password := password s;
     token_type := token_type s;
     access_token := access_token s;
     token_expiry_date := token_expiry_date s |}.

Definition service_row : ServiceRow :=
  {| row_id := 7;
     api_type := Some "PAYPAL";
     row_base_url := Some "https://api.example.org/";
     row_use_proxy := false;
     row_proxy := None;
     row_username := Some "client";
     row_password := Some "secret";
     row_token_type := None;
     row_access_token := Some "T1";
     row_token_expiry_date := Some 2000 |}.

(** A subscription of service 7 with reference ["I-42"], and a request
    for it that carries the same reference. *)
Definition subscription : Row :=
  {| id := 3; rec_service_id := Some 7; refno := Some "I-42" |}.

Definition request : S3Request :=
  {| r_http := "GET";
     r_method := "confirm";
     record := Some subscription;
     get_vars := {[ "subscription_id" := PyStr "I-42" ]} |}.

(** The adapter the factory builds for service 7. *)
Definition paypal : PaymentAdapter :=
  {| cls := PayPalAdapter; svc := service |}.

(** The world at request time 1000, nothing logged, no notice set. *)
Definition world0 : world unit :=
  {| clock := 1000;
     request_utcnow := 1000;
     fin_payment_log := [];
     logfile := [];
     response := {| confirmation := None; warning := None; error := None |};
     ext := tt |}.

(** Collaborators with fixed answers: what [get_access_token] does, what
    [opener.open] does, and the status [check_subscription] reports. *)
Definition oracle (token : result (option string))
    (opened : result HTTPResponse) (status : option string)
    (c : call) : world unit -> result (answer c) * world unit :=
  match c as c0 return world unit -> result (answer c0) * world unit with
  | UtcNow => fun w => (Val (clock w), w)
  | RequestUtcNow => fun w => (Val (request_utcnow w), w)
  | LogInsert _ | LogError _ => fun w => (Val tt, w)
  | SetConfirmation _ | SetWarning _ | SetError _ => fun w => (Val tt, w)
  | SelectService sid =>
      fun w => (Val (if Z.eqb sid 7 then [service_row] else []), w)
  | GetAccessToken _ => fun w => (token, w)
  | OpenerOpen _ _ _ => fun w => (opened, w)
  | CheckSubscription _ _ => fun w => (Val status, w)
  end.

End Fixture.

(** Further records of the deployment: requests that are turned down and
    the tables of the utility functions. *)
Module Sample.

Definition with_base_url (url : option string) (s : S3PaymentService)
    : S3PaymentService :=
  {| service_id := service_id s; base_url := url;
     use_proxy := use_proxy s; proxy := proxy s;
     username := username s; password := password s;
     token_type := token_type s;
     access_token := access_token s;
     token_expiry_date := token_expiry_date s |}.

(** A request without a record, one for a subscription of a service that
    has no configuration, and one that carries the wrong reference. *)
Definition no_record : S3Request :=
  {| r_http := "GET"; r_method := "confirm"; record := None; get_vars := ∅ |}.

Definition orphan : Row :=
  {| id := 4; rec_service_id := Some 8; refno := Some "I-44" |}.

Definition orphan_request : S3Request :=
  {| r_http := "GET"; r_method := "confirm"; record := Some orphan;
     get_vars := {[ "subscription_id" := PyStr "I-44" ]} |}.

Definition forged_request : S3Request :=
  {| r_http := "GET"; r_method := "confirm";
     record := Some Fixture.subscription;
     get_vars := {[ "subscription_id" := PyStr "I-43" ]} |}.

(** A person with a private and a public email address, an organisation,
    and an entity that is registered as an organisation without a row. *)
Definition ada_private : Contact :=
  {| contact_pe_id := Some 101; contact_method := Some "EMAIL";
     contact_deleted := Some false; access := Some 1; priority := 1;
     value := Some "home@example.org" |}.

Definition ada_public : Contact :=
  {| contact_pe_id := Some 101; contact_method := Some "EMAIL";
     contact_deleted := Some false; access := Some 2; priority := 2;
     value := Some "ada@example.org" |}.

Definition ghost : PEntity :=
  {| pe_id := 102; pe_deleted := Some false; instance_type := "org_organisation" |}.

Definition db : database :=
  {| fin_product_service := [];
     fin_subscription_plan_service := [];
     pr_pentity :=
       [{| pe_id := 100; pe_deleted := Some false;
           instance_type := "org_organisation" |};
        {| pe_id := 101; pe_deleted := Some false; instance_type := "pr_person" |};
        ghost];
     org_organisation :=
       [{| org_id := 1; org_pe_id := Some 100; org_deleted := Some false;
           org_name := Some "Relief" |}];
     pr_person :=
       [{| person_pe_id := Some 101; person_deleted := Some false;
           first_name := Some "Ada"; last_name := Some "Lovelace" |}];
     pr_contact := [ada_private; ada_public];
     fin_product :=
       [{| product_id := 11; organisation_id := Some 1;
           product_deleted := Some false |}];
     s3db_tables := {[ "org_organisation"; "pr_person" ]};
     pr_contacts_tabs := ["public"; "private"] |}.

Definition ada : gmap string pyval :=
  <["email" := PyStr "ada@example.org"]>
    (<["last_name" := PyStr "Lovelace"]> (<["first_name" := PyStr "Ada"]> ∅)).

(** Bytes that are not UTF-8. *)
Definition not_utf8 : string := String (Ascii.ascii_of_nat 255) "".

(** The library calls that raise, on the arguments the runs below give
    them: [urllib2.Request] refuses a URL that does not start with a
    scheme, [json.dumps] refuses bytes, exceptions and streams, and
    [s3_str] cannot decode [not_utf8]. *)
#[local] Instance faults : Faults :=
  {| urlencode_fault := fun _ => None;
     Request_fault := fun url _ =>
       if String.prefix "http" url then None
       else Some (ValueError ("unknown url type: " +:+ url));
     json_dumps_fault := fun v =>
       match v with
       | PyBytes _ | PyExc _ | PyStream _ =>
           Some (OtherError "TypeError: not JSON serializable")
       | _ => None
       end;
     s3_str_fault := fun v =>
       match v with
       | PyBytes b =>
           if String.eqb b not_utf8
           then Some (OtherError "UnicodeDecodeError") else None
       | _ => None
       end |}.

(** The library of the fixture, with a [json.load] that loses the
    connection while it reads the body ["..."]. *)
#[local] Instance library_reading : Library :=
  {| T := T (Library := Fixture.library);
     r_url := r_url (Library := Fixture.library);
     urlencode := urlencode (Library := Fixture.library);
     json_dumps := json_dumps (Library := Fixture.library);
     json_load := fun f =>
       if String.eqb (body f) "..." then Exc (OtherError "IncompleteRead")
       else Fixture.load f;
     JSONERRORS := Fixture.json_errors;
     s3_str := Fixture.str_of;
     b64encode := b64encode (Library := Fixture.library);
     req_type := req_type (Library := Fixture.library);
     default_addheaders := default_addheaders (Library := Fixture.library);
     PayPalAdapter := PayPalAdapter (Library := Fixture.library) |}.

(** A context whose log table refuses every insert; everything else is
    answered as in the fixture. *)
Definition refusing_store (c : call)
    : world unit -> result (answer c) * world unit :=
  match c as c0 return world unit -> result (answer c0) * world unit with
  | LogInsert _ => fun w => (Exc (OtherError "IntegrityError"), w)
  | c' => handle (Fixture.oracle (Val None) (Exc (OtherError "unused")) None) c'
  end.

End Sample.


(* ===================================================================== *)
(** ** Properties *)
(* ===================================================================== *)

Section Strings.

Lemma truthy_str_false (o : option string) :
  truthy_str o = false <-> o = None \/ o = Some "".
Proof.
  destruct o as [s |]; unfold truthy_str; simpl.
  - rewrite negb_false_iff, String.eqb_eq. split.
    + intros ->. now right.
    + intros [H | H]; congruence.
  - split; auto.
Qed.

Lemma truthy_str_true (o : option string) :
  truthy_str o = true <-> exists s, o = Some s /\ s <> "".
Proof.
  destruct o as [s |]; unfold truthy_str; simpl.
  - rewrite negb_true_iff, String.eqb_neq. split.
    + intros H. now exists s.
    + intros (s' & [= <-] & H). exact H.
  - split; [discriminate | intros (s & H & _); discriminate].
Qed.

Lemma truthy_str_some (s : string) : s <> "" -> truthy_str (Some s) = true.
Proof. intros H. apply truthy_str_true. now exists s. Qed.

Lemma append_assoc (a b c : string) : (a +:+ b) +:+ c = a +:+ b +:+ c.
Proof.
  induction a as [| x a IH]; [reflexivity |].
  change (String x ((a +:+ b) +:+ c) = String x (a +:+ b +:+ c)).
  now rewrite IH.
Qed.

Lemma contains_here (sub post : string) : contains (sub +:+ post) sub.
Proof. exists "", post. reflexivity. Qed.

Lemma contains_later (pre line sub : string) :
  contains line sub -> contains (pre +:+ line) sub.
Proof.
  intros (p & q & ->). exists (pre +:+ p), q. now rewrite append_assoc.
Qed.

Lemma contains_empty (line : string) : contains line "".
Proof. exists "", line. reflexivity. Qed.

End Strings.

Section LogProperties.

Context {E : Type}.
Variable oracle : forall c : call, world E -> result (answer c) * world E.

(** C8.  A [write] whose action or result is empty or absent does
    nothing: the program is a bare return, so whatever the world, it
    leaves the log table and the log file as they were and makes no
    call at all. *)
Theorem write_blank_is_noop (sid : Z) (action result reason : option string)
    (w : world E) :
  action = None \/ action = Some "" \/ result = None \/ result = Some "" ->
  S3PaymentLog.write sid action result reason = Ret tt /\
  run oracle (S3PaymentLog.write sid action result reason) w = (Val tt, w, []).
Proof.
  intros H.
  assert (Hw : S3PaymentLog.write sid action result reason = Ret tt).
  { unfold S3PaymentLog.write.
    destruct H as [-> | [-> | [-> | ->]]]; simpl;
      rewrite ?orb_true_r; reflexivity. }
  rewrite Hw. split; reflexivity.
Qed.

Lemma run_write (sid : Z) (a res : string) (reason : option string)
    (w : world E) :
  a <> "" -> res <> "" ->
  let entry := {| date := clock w; log_service_id := sid;
                  log_action := Some a; log_result := Some res;
                  log_reason := reason |} in
  run oracle (S3PaymentLog.write sid (Some a) (Some res) reason) w =
  if String.eqb res "ERROR" || String.eqb res "FATAL"
  then (Val tt,
        with_logfile (fun l => l ++ [failure_line sid a reason])
          (with_log (fun l => l ++ [entry]) w),
        [UtcNow; LogInsert entry; LogError (failure_line sid a reason)])
  else (Val tt, with_log (fun l => l ++ [entry]) w,
        [UtcNow; LogInsert entry]).
Proof.
  intros Ha Hres entry. unfold S3PaymentLog.write.
  rewrite (truthy_str_some a Ha), (truthy_str_some res Hres). simpl.
  destruct (String.eqb res "ERROR" || String.eqb res "FATAL"); reflexivity.
Qed.

Lemma failure_line_contains (sid : Z) (a : string) (reason : option string) :
  contains (failure_line sid a reason) (pretty sid) /\
  contains (failure_line sid a reason) a /\
  (forall rs, reason = Some rs -> contains (failure_line sid a reason) rs).
Proof.
  unfold failure_line. repeat split.
  - apply contains_later, contains_here.
  - do 3 apply contains_later.
    destruct (truthy_str reason); apply contains_later, contains_here.
  - intros rs ->. destruct (truthy_str (Some rs)) eqn:Hrs.
    + do 6 apply contains_later. apply contains_here.
    + apply truthy_str_false in Hrs as [Hrs | [= ->]]; [discriminate |].
      apply contains_empty.
Qed.

(** C4.  A [write] with a non-empty action and result stores one entry in
    [fin_payment_log], carrying the service id, the action, the result,
    the reason and the time.  For the results ERROR and FATAL it also puts
    one line into the log file, and that line contains the service id,
    the action and the reason; for INFO, SUCCESS and WARNING the log file
    stays as it was. *)
Theorem write_mirrors_failures (sid : Z) (a res : string)
    (reason : option string) (w : world E) :
  a <> "" -> res <> "" ->
  let x := run oracle (S3PaymentLog.write sid (Some a) (Some res) reason) w in
  let entry := {| date := clock w; log_service_id := sid;
                  log_action := Some a; log_result := Some res;
                  log_reason := reason |} in
  outcome x = Val tt /\
  fin_payment_log (final x) = fin_payment_log w ++ [entry] /\
  (res = "ERROR" \/ res = "FATAL" ->
   exists line,
     logfile (final x) = logfile w ++ [line] /\
     contains line (pretty sid) /\ contains line a /\
     (forall rs, reason = Some rs -> contains line rs)) /\
  (res = "INFO" \/ res = "SUCCESS" \/ res = "WARNING" ->
   logfile (final x) = logfile w).
Proof.
  intros Ha Hres x entry. subst x.
  rewrite (run_write sid a res reason w Ha Hres). fold entry.
  destruct (String.eqb res "ERROR" || String.eqb res "FATAL") eqn:Hfail.
  - repeat split.
    + intros _. exists (failure_line sid a reason). split; [reflexivity |].
      apply failure_line_contains.
    + intros [-> | [-> | ->]]; discriminate.
  - repeat split.
    + intros [-> | ->]; discriminate.
  Qed.

End LogProperties.

Section ReferenceProperties.

(** C5.  The default [verify_reference] answers [False] when the request
    has no record or the record has no reference number, [False] when the
    request has no [subscription_id] variable, and [True] exactly when that
    variable is a string equal to the stored, non-empty reference number. *)
Theorem verify_reference_exact_match (r : S3Request) :
  (record r = None \/
   (exists rec, record r = Some rec /\ (refno rec = None \/ refno rec = Some "")) ->
   verify_reference r = false) /\
  (get_vars r !! "subscription_id" = None -> verify_reference r = false) /\
  (verify_reference r = true <->
   exists rec s, record r = Some rec /\ refno rec = Some s /\ s <> "" /\
                 get_vars r !! "subscription_id" = Some (PyStr s)).
Proof.
  unfold verify_reference. repeat split.
  - intros [-> | (rec & -> & [-> | ->])]; reflexivity.
  - intros ->. destruct (record r) as [rec |]; [| reflexivity].
    destruct (negb (truthy_str (refno rec))); reflexivity.
  - destruct (record r) as [rec |]; [| discriminate].
    destruct (truthy_str (refno rec)) eqn:Href; simpl; [| discriminate].
    apply truthy_str_true in Href as (s & Hs & Hne). rewrite Hs. simpl.
    destruct (get_vars r !! "subscription_id") as [v |]; simpl; [| discriminate].
    destruct v; simpl; try discriminate.
    intros ->%String.eqb_eq. now exists rec, s.
  - intros (rec & s & -> & -> & Hne & ->).
    rewrite (truthy_str_some s Hne). simpl. apply String.eqb_refl.
Qed.

End ReferenceProperties.

Section HttpProperties.

Context {L : Library} {E : Type}.
Variable oracle : forall c : call, world E -> result (answer c) * world E.

(** C6.  Without a base URL, [http()] is the bare return of
    [(None, None, "No base URL set")]: whatever the method, path and other
    arguments, it leaves the world as it was and makes no call, to the
    network or anywhere else. *)
Theorem http_without_base_url (self : S3PaymentService) (method : string)
    (path : option string) (args : list (string * string)) (data : pyval)
    (headers : list header) (auth : pyval) (encode decode : string)
    (w : world E) :
  base_url self = None \/ base_url self = Some "" ->
  http self method path args data headers auth encode decode =
    Ret (PyNone, PyNone, PyStr "No base URL set") /\
  run oracle (http self method path args data headers auth encode decode) w =
    (Val (PyNone, PyNone, PyStr "No base URL set"), w, []).
Proof.
  intros H%truthy_str_false. unfold http. rewrite H. simpl.
  split; reflexivity.
Qed.

Lemma run_lift {A : Type} (r : result A) (w : world E) :
  run oracle (lift r) w = (r, w, []).
Proof. destruct r; reflexivity. Qed.

Lemma run_attempt_perform (c : call) (w : world E) :
  run oracle (attempt (perform c)) w =
  (Val (fst (handle oracle c w)), snd (handle oracle c w), [c]).
Proof.
  simpl. destruct (handle oracle c w) as [[x | e] w1]; reflexivity.
Qed.

(** [http()] with a base URL: it builds the request, obtains the opener,
    opens the request once and fills the slots from what came back. *)
Lemma run_http (self : S3PaymentService) (method : string)
    (path : option string) (args : list (string * string)) (data : pyval)
    (headers : list header) (auth : pyval) (encode decode : string)
    (w : world E) :
  truthy_str (base_url self) = true ->
  let req := fst (http_request self method path args data encode decode) in
  let dat := snd (http_request self method path args data encode decode) in
  run oracle (http self method path args data headers auth encode decode) w =
  match run oracle (_http_opener self req headers auth) w with
  | (Val o, w1, t1) =>
      (http_response decode (fst (oracle (OpenerOpen o req dat) w1)),
       snd (oracle (OpenerOpen o req dat) w1),
       t1 ++ [OpenerOpen o req dat])
  | (Exc e, w1, t1) => (Exc e, w1, t1)
  end.
Proof.
  intros Hbase req dat. unfold http. rewrite Hbase. simpl negb. cbv iota.
  fold req dat. rewrite run_bind.
  destruct (run oracle (_http_opener self req headers auth) w)
    as [[[o | e] w1] t1]; [| reflexivity].
  rewrite run_bind, run_attempt_perform, run_lift. reflexivity.
Qed.

Lemma addheaders_opener_with_app (self : S3PaymentService) (req : Request)
    (auth : pyval) (hs : list header) (h : header) :
  addheaders (opener_with self req auth (hs ++ [h])) = hs ++ [h].
Proof. destruct hs; reflexivity. Qed.

Lemma handlers_join (hs : list handler) (b : bool) (h : handler) :
  (if b then hs ++ [h] else hs) = hs ++ (if b then [h] else []).
Proof. destruct b; [reflexivity | now rewrite app_nil_r]. Qed.

(** Token authentication with a cached token that has no expiry date. *)
Lemma run_opener_token_no_expiry (self : S3PaymentService) (req : Request)
    (headers : list header) (tok : string) (w : world E) :
  access_token self = Some tok -> tok <> "" ->
  token_expiry_date self = None ->
  run oracle (_http_opener self req headers (PyStr "Token")) w =
  (Val (opener_with self req (PyStr "Token")
          (headers ++ [token_header self tok])), w, []).
Proof.
  intros Htok Hne Hexp. unfold _http_opener.
  rewrite Htok, Hexp, (truthy_str_some tok Hne). simpl.
  rewrite (truthy_str_some tok Hne). simpl.
  rewrite handlers_join. reflexivity.
Qed.

(** Token authentication with a cached token that expires later. *)
Lemma run_opener_token_fresh (self : S3PaymentService) (req : Request)
    (headers : list header) (tok : string) (d : Z) (w : world E) :
  access_token self = Some tok -> tok <> "" ->
  token_expiry_date self = Some d -> request_utcnow w < d ->
  run oracle (_http_opener self req headers (PyStr "Token")) w =
  (Val (opener_with self req (PyStr "Token")
          (headers ++ [token_header self tok])), w, [RequestUtcNow]).
Proof.
  intros Htok Hne Hexp Hlt. unfold _http_opener.
  rewrite Htok, Hexp, (truthy_str_some tok Hne). simpl.
  rewrite (proj2 (Z.leb_gt d (request_utcnow w)) Hlt). simpl.
  rewrite (truthy_str_some tok Hne). simpl.
  rewrite handlers_join. reflexivity.
Qed.

(** Token authentication with a stale token: one refresh; a token it
    returns is used, [NotImplementedError] counts as no token, any other
    exception leaves [_http_opener]. *)
Lemma run_opener_token_stale (self : S3PaymentService) (req : Request)
    (headers : list header) (w : world E) :
  stale self (request_utcnow w) ->
  run oracle (_http_opener self req headers (PyStr "Token")) w =
  (match fst (oracle (GetAccessToken self) w) with
   | Val tok =>
       Val (opener_with self req (PyStr "Token")
              (if truthy_str tok
               then headers ++ [token_header self (fmt_ostr tok)]
               else headers))
   | Exc NotImplementedError =>
       Val (opener_with self req (PyStr "Token") headers)
   | Exc e => Exc e
   end,
   snd (oracle (GetAccessToken self) w),
   clock_reads self ++ [GetAccessToken self]).
Proof.
  intros Hstale. unfold _http_opener, clock_reads.
  destruct (truthy_str (access_token self)) eqn:Htok.
  - destruct Hstale as [H | [H | (d & Hexp & Hle)]];
      [rewrite H in Htok; discriminate .. |].
    rewrite Hexp. simpl.
    rewrite (proj2 (Z.leb_le d (request_utcnow w)) Hle). simpl.
    destruct (oracle (GetAccessToken self) w) as [[tok | e] w1]; simpl.
    + destruct (truthy_str tok); simpl; rewrite handlers_join; reflexivity.
    + destruct e; simpl; rewrite ?handlers_join; reflexivity.
  - simpl.
    destruct (oracle (GetAccessToken self) w) as [[tok | e] w1]; simpl.
    + destruct (truthy_str tok); simpl; rewrite handlers_join; reflexivity.
    + destruct e; simpl; rewrite ?handlers_join; reflexivity.
Qed.

Section TokenAuth.

Variables (self : S3PaymentService) (method : string)
  (path : option string) (args : list (string * string)) (data : pyval)
  (headers : list header) (encode decode : string) (w : world E).

Let req := fst (http_request self method path args data encode decode).
Let dat := snd (http_request self method path args data encode decode).
Let x :=
  run oracle
    (http self method path args data headers (PyStr "Token") encode decode)
    w.

(** C2.  [http()] with [auth = "Token"] and a base URL.  With a cached
    token whose expiry date is after the request time, the calls of the
    run are the clock read and the request: no refresh, and the opener
    sends the cached token.  With no cached token, or one whose expiry
    date is at or before the request time, the run makes exactly one
    call of [get_access_token], and no request goes out before it. *)
Theorem token_refreshed_only_when_stale :
  truthy_str (base_url self) = true ->
  (forall tok d,
     access_token self = Some tok -> tok <> "" ->
     token_expiry_date self = Some d -> request_utcnow w < d ->
     let o := opener_with self req (PyStr "Token")
                (headers ++ [token_header self tok]) in
     trace x = [RequestUtcNow; OpenerOpen o req dat] /\
     refreshes (trace x) = 0%nat /\
     addheaders o = headers ++ [token_header self tok]) /\
  (stale self (request_utcnow w) ->
   refreshes (trace x) = 1%nat /\
   exists pre post,
     trace x = pre ++ GetAccessToken self :: post /\ nothing_sent pre).
Proof.
  intros Hbase. subst x. rewrite (run_http _ _ _ _ _ _ _ _ _ _ Hbase).
  fold req dat. split.
  - intros tok d Htok Hne Hexp Hlt o.
    rewrite (run_opener_token_fresh self req headers tok d w Htok Hne Hexp Hlt).
    repeat split. apply addheaders_opener_with_app.
  - intros Hstale.
    rewrite (run_opener_token_stale self req headers w Hstale).
    assert (Hpre : nothing_sent (clock_reads self) /\
                   refreshes (clock_reads self) = 0%nat).
    { unfold clock_reads. destruct (truthy_str (access_token self)); now split. }
    destruct Hpre as [Hsent Hnone].
    assert (Hcount : forall post, refreshes post = 0%nat ->
              refreshes ((clock_reads self ++ [GetAccessToken self]) ++ post) = 1%nat).
    { intros post Hpost. unfold refreshes in *.
      rewrite !filter_app, !length_app, Hnone, Hpost. reflexivity. }
    destruct (oracle (GetAccessToken self) w) as [[tok | e] w1]; simpl fst; simpl snd.
    + simpl trace. split; [now apply Hcount |].
      exists (clock_reads self), [OpenerOpen
        (opener_with self req (PyStr "Token")
           (if truthy_str tok
            then headers ++ [token_header self (fmt_ostr tok)]
            else headers)) req dat].
      split; [now rewrite <- app_assoc | exact Hsent].
    + destruct e; simpl trace;
        (split;
         [ first [ now apply Hcount
                 | rewrite <- (app_nil_r (_ ++ [GetAccessToken self]));
                   now apply Hcount ]
         | eexists (clock_reads self), _;
           split; [ first [ now rewrite <- app_assoc | reflexivity ]
                  | exact Hsent ] ]).
Qed.

(** C10.  A cached token without an expiry date is never refreshed:
    the only call of the run is the request, and the opener sends the
    cached token in its Authorization header. *)
Theorem token_without_expiry_is_kept (tok : string) :
  truthy_str (base_url self) = true ->
  access_token self = Some tok -> tok <> "" ->
  token_expiry_date self = None ->
  let o := opener_with self req (PyStr "Token")
             (headers ++ [token_header self tok]) in
  trace x = [OpenerOpen o req dat] /\
  refreshes (trace x) = 0%nat /\
  addheaders o = headers ++ [token_header self tok].
Proof.
  intros Hbase Htok Hne Hexp o. subst x.
  rewrite (run_http _ _ _ _ _ _ _ _ _ _ Hbase). fold req dat.
  rewrite (run_opener_token_no_expiry self req headers tok w Htok Hne Hexp).
  repeat split. apply addheaders_opener_with_app.
Qed.

(** C3, as the code has it.  What the failure of the refresh of a stale
    token does depends on how [get_access_token] fails.  If it is not
    implemented ([NotImplementedError]) or returns no token ([None] or an
    empty one), the request is sent all the same, right after the refresh
    attempt, with an opener to which no Authorization header was added: its
    headers are the caller's, or the opener's own if the caller gave none;
    [http()] then returns what the request yields.  If it raises any other
    exception, that exception leaves [http()]: the [try] of [_http_opener]
    catches [NotImplementedError] only, and [http()] calls [_http_opener]
    outside its own [try]; no request is sent. *)
Theorem refresh_failure_degrades_or_aborts
    (r : result (option string)) (w1 : world E) :
  truthy_str (base_url self) = true ->
  stale self (request_utcnow w) ->
  oracle (GetAccessToken self) w = (r, w1) ->
  (r = Exc NotImplementedError \/ r = Val None \/ r = Val (Some "") ->
   let o := opener_with self req (PyStr "Token") headers in
   trace x = clock_reads self ++ [GetAccessToken self; OpenerOpen o req dat] /\
   addheaders o = match headers with
                  | [] => default_addheaders
                  | _ => headers
                  end /\
   ((forall v, ~ In ("Authorization", v) (headers ++ default_addheaders)) ->
    forall v, ~ In ("Authorization", v) (addheaders o)) /\
   outcome x = http_response decode (fst (oracle (OpenerOpen o req dat) w1)) /\
   final x = snd (oracle (OpenerOpen o req dat) w1)) /\
  (forall e,
     r = Exc e -> e <> NotImplementedError ->
     outcome x = Exc e /\ final x = w1 /\
     trace x = clock_reads self ++ [GetAccessToken self] /\
     nothing_sent (trace x)).
Proof.
  intros Hbase Hstale Horacle. subst x.
  rewrite (run_http _ _ _ _ _ _ _ _ _ _ Hbase). fold req dat.
  rewrite (run_opener_token_stale self req headers w Hstale), Horacle.
  split.
  - intros Hfail o.
    assert (Hheaders :
      (forall v, ~ In ("Authorization", v) (headers ++ default_addheaders)) ->
      forall v, ~ In ("Authorization", v) (addheaders o)).
    { intros Hnone v Hin. apply (Hnone v). apply in_or_app.
      subst o. simpl in Hin. destruct headers; [now right | now left]. }
    destruct Hfail as [-> | [-> | ->]]; simpl; fold o;
      rewrite <- app_assoc; repeat split; assumption.
  - intros e -> Hne.
    assert (Hsent : nothing_sent (clock_reads self ++ [GetAccessToken self])).
    { unfold nothing_sent, clock_reads.
      destruct (truthy_str (access_token self)); reflexivity. }
    destruct e; try (repeat split; exact Hsent). now destruct Hne.
Qed.

End TokenAuth.

End HttpProperties.

Section ConfirmProperties.

Context {L : Library} {E : Type}.
Variable oracle : forall c : call, world E -> result (answer c) * world E.

Lemma run_try_except_val {A : Type} (p : prog A) (catches : exn -> bool)
    (h : exn -> prog A) (w w1 : world E) (a : A) (t1 : list call) :
  run oracle p w = (Val a, w1, t1) ->
  run oracle (try_except p catches h) w = (Val a, w1, t1).
Proof.
  revert w t1. induction p as [a' | e | c k IH]; intros w t1; simpl.
  - trivial.
  - discriminate.
  - destruct (handle oracle c w) as [r w'].
    destruct (run oracle (k r) w') as [[res w2] t] eqn:Hk.
    intros [= -> -> <-]. now rewrite (IH r w' t Hk).
Qed.

Lemma run_perform (c : call) (w : world E) :
  run oracle (perform c) w =
  (fst (handle oracle c w), snd (handle oracle c w), [c]).
Proof.
  simpl. destruct (handle oracle c w) as [[v | e] w1]; reflexivity.
Qed.

Section Confirm.

Variables (r : S3Request) (rec : Row) (sid : Z) (a : PaymentAdapter)
  (w w1 w2 : world E) (t1 : list call) (status : option string).

(** The request has a record of a service, the adapter of that service
    is found, the reference check of the adapter passes, and
    [check_subscription] returns [status]. *)
Hypothesis Hrecord : record r = Some rec.
Hypothesis Hservice : rec_service_id rec = Some sid.
Hypothesis Hsid : sid <> 0.
Hypothesis Hadapter : run oracle (adapter sid) w = (Val a, w1, t1).
Hypothesis Hverify : cls_verify_reference (cls a) r = true.
Hypothesis Hcheck :
  oracle (CheckSubscription a (id rec)) w1 = (Val status, w2).

Let x := run oracle (confirm_subscription r) w.

(** The method up to the status check, with the mapping of the status
    still to run. *)
Lemma run_confirm_checked :
  x =
  let '(res, w3, t3) :=
    run oracle
      ((if py_eq_str (of_ostr status) "ACTIVE" then
          perform (SetConfirmation (T "Subscription activated"))
        else if py_eq_str (of_ostr status) "APPROVED" then
          Ret tt
        else if truthy_str status then
          perform (SetWarning (T "Subscription inactive"))
        else
          perform (SetError (T "Could not verify subscription status"))) ;;
       Ret {| output := []; r_after := set_http "POST" r;
              next := r_url (set_http "POST" r) "" |}) w2 in
  (res, w3, t1 ++ CheckSubscription a (id rec) :: t3).
Proof.
  subst x. unfold confirm_subscription.
  rewrite Hrecord, Hservice, (proj2 (Z.eqb_neq sid 0) Hsid).
  rewrite run_bind, (run_try_except_val _ _ _ _ _ _ _ Hadapter).
  rewrite Hverify. simpl negb. cbv iota.
  rewrite run_bind, run_perform. simpl handle. rewrite Hcheck.
  simpl fst. simpl snd. cbv iota.
  match goal with
  | |- context [run oracle ?p w2] => destruct (run oracle p w2) as [[res w3] t3]
  end.
  reflexivity.
Qed.

(** C1, as the code has it.  After a passed reference check, the
    status that [check_subscription] returns decides the one notice
    that is set: "ACTIVE" sets the confirmation, no status or an empty
    one sets the error, and any other non-empty status except
    "APPROVED" sets the warning.  In each case the world is the one
    [check_subscription] left, with that single notice put in. *)
Theorem confirm_maps_status_to_notice :
  (status = Some "ACTIVE" ->
   final x =
     with_response (set_confirmation (T "Subscription activated")) w2 /\
   trace x = t1 ++ [CheckSubscription a (id rec);
                    SetConfirmation (T "Subscription activated")]) /\
  (status = None \/ status = Some "" ->
   final x =
     with_response
       (set_error (T "Could not verify subscription status")) w2 /\
   trace x = t1 ++ [CheckSubscription a (id rec);
                    SetError (T "Could not verify subscription status")]) /\
  (forall s,
     status = Some s -> s <> "" -> s <> "ACTIVE" -> s <> "APPROVED" ->
     final x = with_response (set_warning (T "Subscription inactive")) w2 /\
     trace x = t1 ++ [CheckSubscription a (id rec);
                      SetWarning (T "Subscription inactive")]).
Proof.
  rewrite run_confirm_checked. split; [| split].
  - intros Hs. rewrite Hs. split; reflexivity.
  - intros [Hs | Hs]; rewrite Hs; split; reflexivity.
  - intros s Hs Hne Hactive Happroved. rewrite Hs.
    simpl of_ostr. simpl py_eq_str.
    rewrite (proj2 (String.eqb_neq s "ACTIVE") Hactive).
    rewrite (proj2 (String.eqb_neq s "APPROVED") Happroved).
    rewrite (truthy_str_some s Hne). split; reflexivity.
Qed.

(** C9.  With the status "APPROVED" the method sets no notice and
    calls nothing after [check_subscription]: the world is exactly the
    one [check_subscription] left, so confirmation, warning and error
    are as they were, and the method returns normally, with the request
    turned into a POST, [next] set and an empty output. *)
Theorem confirm_approved_changes_nothing :
  status = Some "APPROVED" ->
  outcome x = Val {| output := []; r_after := set_http "POST" r;
                     next := r_url (set_http "POST" r) "" |} /\
  final x = w2 /\
  response (final x) = response w2 /\
  trace x = t1 ++ [CheckSubscription a (id rec)].
Proof.
  intros Hs. rewrite run_confirm_checked, Hs. repeat split.
Qed.

End Confirm.

End ConfirmProperties.

(* ===================================================================== *)
(** ** Runs on the concrete deployment *)
(* ===================================================================== *)

(** C8 at work: an INFO entry without an action. *)
Lemma write_blank_is_noop_witness :
  let orc := Fixture.oracle (Val None) (Exc (OtherError "unused")) None in
  (@None string = None \/ @None string = Some "" \/
   Some "INFO" = @None string \/ Some "INFO" = Some "") /\
  run orc (S3PaymentLog.write 7 None (Some "INFO") (Some "why")) Fixture.world0 =
    (Val tt, Fixture.world0, []).
Proof.
  cbv zeta. split; [left; reflexivity |].
  apply (write_blank_is_noop _ 7 None (Some "INFO") (Some "why") Fixture.world0).
  left; reflexivity.
Defined.

(** C4 at work: a failed registration is stored and mirrored. *)
Lemma write_mirrors_failures_witness :
  let orc := Fixture.oracle (Val None) (Exc (OtherError "unused")) None in
  let x := run orc (S3PaymentLog.write 7 (Some "register") (Some "ERROR") (Some "timeout"))
             Fixture.world0 in
  "register" <> "" /\ "ERROR" <> "" /\
  fin_payment_log (final x) =
    [{| date := 1000; log_service_id := 7; log_action := Some "register";
        log_result := Some "ERROR"; log_reason := Some "timeout" |}] /\
  exists line,
    logfile (final x) = [line] /\
    contains line "7" /\ contains line "register" /\
    (forall rs, Some "timeout" = Some rs -> contains line rs).
Proof.
  cbv zeta.
  assert (Ha : "register" <> "") by discriminate.
  assert (Hres : "ERROR" <> "") by discriminate.
  split; [exact Ha |]. split; [exact Hres |].
  destruct (write_mirrors_failures
              (Fixture.oracle (Val None) (Exc (OtherError "unused")) None)
              7 "register" "ERROR" (Some "timeout") Fixture.world0 Ha Hres)
    as (_ & Hlog & Hfail & _).
  split; [exact Hlog |]. exact (Hfail (or_introl eq_refl)).
Defined.

(** C6 at work: a ping to a service without a base URL. *)
Lemma http_without_base_url_witness :
  let orc := Fixture.oracle (Val None) (Exc (OtherError "unused")) None in
  let self := Fixture.without_base_url Fixture.service in
  (base_url self = None \/ base_url self = Some "") /\
  run orc
    (http (L := Fixture.library) self "GET" (Some "/ping") [] PyNone []
          (PyBool false) "json" "json") Fixture.world0 =
  (Val (PyNone, PyNone, PyStr "No base URL set"), Fixture.world0, []).
Proof.
  cbv zeta. split; [left; reflexivity |].
  apply (http_without_base_url (L := Fixture.library)).
  left; reflexivity.
Defined.

(** C2 at work: the token of the fixture is valid until 2000 and the
    request is made at 1000, so it is used as it is; the same token with
    expiry date 500 is refreshed once. *)
Lemma token_refreshed_only_when_stale_witness :
  let orc := Fixture.oracle (Val (Some "T2")) (Val (mkResponse 200 "{}")) None in
  let expired := Fixture.with_token (Some "T1") (Some 500) Fixture.service in
  let get self :=
    run orc
      (http (L := Fixture.library) self "GET" (Some "/ping") [] PyNone []
            (PyStr "Token") "json" "json") Fixture.world0 in
  truthy_str (base_url Fixture.service) = true /\
  truthy_str (base_url expired) = true /\
  request_utcnow Fixture.world0 < 2000 /\
  stale expired (request_utcnow Fixture.world0) /\
  refreshes (trace (get Fixture.service)) = 0%nat /\
  refreshes (trace (get expired)) = 1%nat.
Proof.
  cbv zeta.
  assert (Hbase : truthy_str (base_url Fixture.service) = true) by reflexivity.
  assert (Hlt : request_utcnow Fixture.world0 < 2000) by reflexivity.
  assert (Hstale : stale (Fixture.with_token (Some "T1") (Some 500) Fixture.service)
                         (request_utcnow Fixture.world0)).
  { right; right. exists 500. split; [reflexivity | discriminate]. }
  split; [exact Hbase |]. split; [reflexivity |]. split; [exact Hlt |].
  split; [exact Hstale |]. split.
  - destruct (token_refreshed_only_when_stale (L := Fixture.library)
                (Fixture.oracle (Val (Some "T2")) (Val (mkResponse 200 "{}")) None)
                Fixture.service "GET" (Some "/ping") [] PyNone [] "json" "json"
                Fixture.world0 Hbase) as [Hfresh _].
    assert (Hne : "T1" <> "") by discriminate.
    exact (proj1 (proj2 (Hfresh "T1" 2000 eq_refl Hne eq_refl Hlt))).
  - destruct (token_refreshed_only_when_stale (L := Fixture.library)
                (Fixture.oracle (Val (Some "T2")) (Val (mkResponse 200 "{}")) None)
                (Fixture.with_token (Some "T1") (Some 500) Fixture.service)
                "GET" (Some "/ping") [] PyNone [] "json" "json"
                Fixture.world0 Hbase) as [_ Hold].
    exact (proj1 (Hold Hstale)).
Defined.

(** C10 at work: the token of the fixture without an expiry date. *)
Lemma token_without_expiry_is_kept_witness :
  let orc := Fixture.oracle (Val (Some "T2")) (Val (mkResponse 200 "{}")) None in
  let self := Fixture.with_token (Some "T1") None Fixture.service in
  let x :=
    run orc
      (http (L := Fixture.library) self "GET" (Some "/ping") [] PyNone []
            (PyStr "Token") "json" "json") Fixture.world0 in
  truthy_str (base_url self) = true /\
  access_token self = Some "T1" /\ "T1" <> "" /\
  token_expiry_date self = None /\
  refreshes (trace x) = 0%nat /\
  exists o req dat,
    trace x = [OpenerOpen o req dat] /\
    addheaders o = [("Authorization", "Bearer T1")].
Proof.
  cbv zeta.
  assert (Hne : "T1" <> "") by discriminate.
  split; [reflexivity |]. split; [reflexivity |]. split; [exact Hne |].
  split; [reflexivity |]. split.
  - exact (proj1 (proj2
      (token_without_expiry_is_kept (L := Fixture.library)
         (Fixture.oracle (Val (Some "T2")) (Val (mkResponse 200 "{}")) None)
         (Fixture.with_token (Some "T1") None Fixture.service)
         "GET" (Some "/ping") [] PyNone [] "json" "json" Fixture.world0 "T1"
         eq_refl eq_refl Hne eq_refl))).
  - eexists _, _, _. split; reflexivity.
Defined.

(** C3 at work: no cached token, and a provider adapter that does not
    implement [get_access_token]. *)
Lemma refresh_failure_degrades_or_aborts_witness :
  let orc := Fixture.oracle (Exc NotImplementedError)
               (Exc (HTTPError 401 "unauthorized")) None in
  let self := Fixture.with_token None None Fixture.service in
  let x :=
    run orc
      (http (L := Fixture.library) self "GET" (Some "/ping") [] PyNone []
            (PyStr "Token") "json" "json") Fixture.world0 in
  truthy_str (base_url self) = true /\
  stale self (request_utcnow Fixture.world0) /\
  orc (GetAccessToken self) Fixture.world0 =
    (Exc NotImplementedError, Fixture.world0) /\
  outcome x = Val (PyNone, PyInt 401, PyStr "unauthorized") /\
  exists o req dat,
    trace x = [GetAccessToken self; OpenerOpen o req dat] /\
    addheaders o = [("User-agent", "Python-urllib/3.8")].
Proof.
  cbv zeta.
  assert (Hstale : stale (Fixture.with_token None None Fixture.service)
                         (request_utcnow Fixture.world0)) by (left; reflexivity).
  destruct (refresh_failure_degrades_or_aborts (L := Fixture.library)
              (Fixture.oracle (Exc NotImplementedError)
                 (Exc (HTTPError 401 "unauthorized")) None)
              (Fixture.with_token None None Fixture.service)
              "GET" (Some "/ping") [] PyNone [] "json" "json" Fixture.world0
              (Exc NotImplementedError) Fixture.world0
              eq_refl Hstale eq_refl) as [Hdegrades _].
  destruct (Hdegrades (or_introl eq_refl)) as (Htrace & Hhdr & _ & Hout & _).
  split; [reflexivity |]. split; [exact Hstale |]. split; [reflexivity |].
  split; [exact Hout |].
  eexists _, _, _. split; [exact Htrace | exact Hhdr].
Defined.

(** C3 as stated fails: a [get_access_token] that fails with an exception
    of its own (here a [ValueError]) is not caught; the exception leaves
    [http()], whose only call was the refresh: the request is not
    attempted. *)
Lemma refresh_exception_aborts_http :
  let orc := Fixture.oracle (Exc (ValueError "invalid client"))
               (Val (mkResponse 200 "{}")) None in
  let self := Fixture.with_token None None Fixture.service in
  let x :=
    run orc
      (http (L := Fixture.library) self "GET" (Some "/ping") [] PyNone []
            (PyStr "Token") "json" "json") Fixture.world0 in
  truthy_str (base_url self) = true /\
  stale self (request_utcnow Fixture.world0) /\
  orc (GetAccessToken self) Fixture.world0 =
    (Exc (ValueError "invalid client"), Fixture.world0) /\
  outcome x = Exc (ValueError "invalid client") /\
  trace x = [GetAccessToken self] /\
  nothing_sent (trace x).
Proof.
  cbv zeta. split; [reflexivity |]. split; [left; reflexivity |].
  repeat split.
Qed.

(** C1 at work: an active subscription is confirmed. *)
Lemma confirm_maps_status_to_notice_witness :
  let orc := Fixture.oracle (Val None) (Exc (OtherError "unused")) (Some "ACTIVE") in
  let x :=
    run orc (confirm_subscription (L := Fixture.library) Fixture.request)
        Fixture.world0 in
  record Fixture.request = Some Fixture.subscription /\
  rec_service_id Fixture.subscription = Some 7 /\
  7 <> 0 /\
  run orc (adapter (L := Fixture.library) 7) Fixture.world0 =
    (Val Fixture.paypal, Fixture.world0, [SelectService 7]) /\
  cls_verify_reference (cls Fixture.paypal) Fixture.request = true /\
  orc (CheckSubscription Fixture.paypal (id Fixture.subscription)) Fixture.world0 =
    (Val (Some "ACTIVE"), Fixture.world0) /\
  response (final x) =
    {| confirmation := Some "Subscription activated";
       warning := None; error := None |}.
Proof.
  cbv zeta.
  assert (Hsid : 7 <> 0) by discriminate.
  split; [reflexivity |]. split; [reflexivity |]. split; [exact Hsid |].
  split; [reflexivity |]. split; [reflexivity |]. split; [reflexivity |].
  destruct (confirm_maps_status_to_notice (L := Fixture.library)
              (Fixture.oracle (Val None) (Exc (OtherError "unused")) (Some "ACTIVE"))
              Fixture.request Fixture.subscription 7 Fixture.paypal
              Fixture.world0 Fixture.world0 Fixture.world0 [SelectService 7]
              (Some "ACTIVE") eq_refl eq_refl Hsid eq_refl eq_refl eq_refl)
    as [Hactive _].
  destruct (Hactive eq_refl) as [Hfinal _].
  rewrite Hfinal. reflexivity.
Defined.

(** C1 as stated fails: "APPROVED" is a non-empty status other than
    "ACTIVE", and after a passed reference check it sets no warning (and
    no other notice). *)
Lemma confirm_approved_sets_no_warning :
  let orc := Fixture.oracle (Val None) (Exc (OtherError "unused")) (Some "APPROVED") in
  let x :=
    run orc (confirm_subscription (L := Fixture.library) Fixture.request)
        Fixture.world0 in
  cls_verify_reference (cls Fixture.paypal) Fixture.request = true /\
  orc (CheckSubscription Fixture.paypal (id Fixture.subscription)) Fixture.world0 =
    (Val (Some "APPROVED"), Fixture.world0) /\
  "APPROVED" <> "" /\ "APPROVED" <> "ACTIVE" /\
  trace x = [SelectService 7; CheckSubscription Fixture.paypal 3] /\
  response (final x) =
    {| confirmation := None; warning := None; error := None |}.
Proof.
  cbv zeta. repeat split; try reflexivity; discriminate.
Qed.

(** C9 at work: an approved subscription. *)
Lemma confirm_approved_changes_nothing_witness :
  let orc := Fixture.oracle (Val None) (Exc (OtherError "unused")) (Some "APPROVED") in
  let x :=
    run orc (confirm_subscription (L := Fixture.library) Fixture.request)
        Fixture.world0 in
  record Fixture.request = Some Fixture.subscription /\
  rec_service_id Fixture.subscription = Some 7 /\
  7 <> 0 /\
  run orc (adapter (L := Fixture.library) 7) Fixture.world0 =
    (Val Fixture.paypal, Fixture.world0, [SelectService 7]) /\
  cls_verify_reference (cls Fixture.paypal) Fixture.request = true /\
  orc (CheckSubscription Fixture.paypal (id Fixture.subscription)) Fixture.world0 =
    (Val (Some "APPROVED"), Fixture.world0) /\
  Some "APPROVED" = Some "APPROVED" /\
  final x = Fixture.world0 /\
  r_http (r_after (match outcome x with
                   | Val m => m
                   | Exc _ => {| output := []; r_after := Fixture.request;
                                 next := "" |}
                   end)) = "POST".
Proof.
  cbv zeta.
  assert (Hsid : 7 <> 0) by discriminate.
  destruct (confirm_approved_changes_nothing (L := Fixture.library)
              (Fixture.oracle (Val None) (Exc (OtherError "unused")) (Some "APPROVED"))
              Fixture.request Fixture.subscription 7 Fixture.paypal
              Fixture.world0 Fixture.world0 Fixture.world0 [SelectService 7]
              (Some "APPROVED") eq_refl eq_refl Hsid eq_refl eq_refl eq_refl
              eq_refl)
    as (Hout & Hfinal & _).
  split; [reflexivity |]. split; [reflexivity |]. split; [exact Hsid |].
  split; [reflexivity |]. split; [reflexivity |]. split; [reflexivity |].
  split; [reflexivity |]. split; [exact Hfinal |].
  rewrite Hout. reflexivity.
Defined.

(* ===================================================================== *)
(** ** Further properties: the request [http()] builds *)
(* ===================================================================== *)

Section UrlProperties.

Lemma rev_app_append (s acc : string) :
  String.rev_app s acc = String.rev_app s "" +:+ acc.
Proof.
  revert acc. induction s as [| a s IH]; intros acc; [reflexivity |].
  simpl. rewrite (IH (String a acc)), (IH (String a "")).
  now rewrite append_assoc.
Qed.

Lemma append_nil_r (s : string) : s +:+ "" = s.
Proof.
  induction s as [| x s IH]; [reflexivity |].
  change (String x (s +:+ "") = String x s). now rewrite IH.
Qed.

Lemma rev_append (a b : string) :
  String.rev (a +:+ b) = String.rev b +:+ String.rev a.
Proof.
  unfold String.rev. induction a as [| x a IH].
  - change ("" +:+ b) with b. simpl. now rewrite append_nil_r.
  - change (String x a +:+ b) with (String x (a +:+ b)). simpl.
    rewrite (rev_app_append (a +:+ b)), IH, (rev_app_append a (String x "")).
    now rewrite append_assoc.
Qed.

Lemma rev_involutive (s : string) : String.rev (String.rev s) = s.
Proof.
  induction s as [| x s IH]; [reflexivity |].
  change (String x s) with (String x "" +:+ s) at 1.
  rewrite rev_append, rev_append, IH. reflexivity.
Qed.

Lemma lstrip_slash_no_lead (s t : string) :
  lstrip_slash s <> String "/"%char t.
Proof.
  induction s as [| x s IH]; simpl; [discriminate |].
  destruct (Ascii.ascii_dec x "/"%char) as [-> | Hx]; [exact IH |].
  destruct x as [[] [] [] [] [] [] [] []]; try (intros [=]; fail); try exact IH.
Qed.

Lemma rstrip_slash_no_trail (s t : string) :
  rstrip_slash s <> t +:+ "/".
Proof.
  unfold rstrip_slash. intros H.
  apply (f_equal String.rev) in H.
  rewrite rev_involutive, rev_append in H.
  exact (lstrip_slash_no_lead _ _ H).
Qed.

Lemma rstrip_slash_trailing (s : string) :
  rstrip_slash (s +:+ "/") = rstrip_slash s.
Proof. unfold rstrip_slash. now rewrite rev_append. Qed.

End UrlProperties.

Section RequestProperties.

Context {L : Library}.

Lemma http_request_url (self : S3PaymentService) (method : string)
    (path : option string) (args : list (string * string)) (data : pyval)
    (encode decode : string) :
  req_url (fst (http_request self method path args data encode decode)) =
  let url := rstrip_slash (fmt_ostr (base_url self)) in
  let url :=
    if truthy_str path then url +:+ "/" +:+ lstrip_slash (fmt_ostr path)
    else url in
  match args with
  | [] => url
  | _ => url +:+ "?" +:+ urlencode args
  end.
Proof.
  unfold http_request.
  destruct (String.eqb method "GET"), (truthy data), (String.eqb encode "json"),
    (String.eqb encode "text"), (String.eqb decode "json"); reflexivity.
Qed.

(** X1.  [http()] joins the base URL and the path with exactly one slash:
    the URL is the base URL without its trailing slashes, a slash, the path
    without its leading slashes, and the encoded arguments after a question
    mark if there are any.  A further slash at the end of the base URL or at
    the start of the path changes nothing of the request. *)
Theorem url_join_normalises_slashes (self self' : S3PaymentService)
    (method b p : string) (args : list (string * string)) (data : pyval)
    (encode decode : string) :
  base_url self = Some b -> p <> "" ->
  base_url self' = Some (b +:+ "/") ->
  req_url (fst (http_request self method (Some p) args data encode decode)) =
    rstrip_slash b +:+ "/" +:+ lstrip_slash p +:+
    match args with
    | [] => ""
    | _ => "?" +:+ urlencode args
    end /\
  (forall t, rstrip_slash b <> t +:+ "/") /\
  (forall t, lstrip_slash p <> String "/"%char t) /\
  http_request self' method (Some (String "/"%char p)) args data encode decode =
  http_request self method (Some p) args data encode decode.
Proof.
  intros Hbase Hp Hbase'. split; [| split; [| split]].
  - rewrite http_request_url, Hbase, (truthy_str_some p Hp). simpl.
    destruct args as [| kv args].
    + now rewrite append_nil_r.
    + now rewrite ?append_assoc.
  - apply rstrip_slash_no_trail.
  - apply lstrip_slash_no_lead.
  - unfold http_request. rewrite Hbase, Hbase', (truthy_str_some p Hp).
    assert (Hp' : truthy_str (Some (String "/"%char p)) = true) by reflexivity.
    rewrite Hp'. simpl fmt_ostr. rewrite rstrip_slash_trailing. reflexivity.
Qed.

(** X2.  The request carries a body exactly when the method is not GET and
    the data is true in Python's sense (an empty dict, an empty string or
    [None] is not sent, whatever the method), and it carries a Content-Type
    header exactly when it carries a body.  Its Accept header is
    [application/json] for [decode = "json"] and [*/*] otherwise. *)
Theorem content_type_iff_body (self : S3PaymentService) (method : string)
    (path : option string) (args : list (string * string)) (data : pyval)
    (encode decode : string) :
  let req := fst (http_request self method path args data encode decode) in
  let dat := snd (http_request self method path args data encode decode) in
  (is_Some dat <-> method <> "GET" /\ truthy data = true) /\
  ((exists v, In ("Content-Type", v) (req_headers req)) <-> is_Some dat) /\
  (exists accept,
     filter (fun h => String.eqb (fst h) "Accept") (req_headers req) =
       [("Accept", accept)] /\
     accept = if String.eqb decode "json" then "application/json" else "*/*") /\
  req_method req = method.
Proof.
  unfold http_request.
  destruct (String.eqb_spec method "GET") as [Hget | Hget];
    [| destruct (truthy data) eqn:Hdata;
       [destruct (String.eqb encode "json"), (String.eqb encode "text") |]];
    destruct (String.eqb decode "json"); simpl;
    (split; [| split; [| split]]).
  all: try reflexivity.
  all: try (eexists; split; reflexivity).
  all: try (split; [intros [d Hd]; discriminate Hd | intros [Hm Ht]; now destruct Hm]).
  all: try (split; [intros [d Hd]; discriminate Hd | intros [Hm Ht]; discriminate Ht]).
  all: try (split; [intros _; now split | intros _; eauto]).
  all: try (split; [intros _; eauto | intros _; eexists; left; reflexivity]).
  all: split; [| intros [d Hd]; discriminate Hd].
  all: intros [v Hv]; exfalso.
  all: repeat (destruct Hv as [Hv | Hv]; [discriminate Hv |]); exact Hv.
Qed.

End RequestProperties.

(* ===================================================================== *)
(** ** Further properties: authentication and the opener *)
(* ===================================================================== *)

Section OpenerProperties.

Context {L : Library} {E : Type}.
Variable oracle : forall c : call, world E -> result (answer c) * world E.

Lemma py_eq_str_true (v : pyval) (s : string) :
  py_eq_str v s = true -> v = PyStr s.
Proof.
  destruct v; simpl; try discriminate. now intros ->%String.eqb_eq.
Qed.

Lemma run_opener_basic (self : S3PaymentService) (req : Request)
    (headers : list header) (w : world E) :
  run oracle (_http_opener self req headers (PyStr "Basic")) w =
  (Val (opener_with self req (PyStr "Basic")
          (if truthy_str (username self) && truthy_str (password self)
           then headers ++ [basic_header self] else headers)), w, []).
Proof.
  unfold _http_opener, opener_with. simpl.
  destruct (truthy_str (username self)), (truthy_str (password self)); simpl;
    rewrite ?app_nil_r; reflexivity.
Qed.

Lemma run_opener_plain (self : S3PaymentService) (req : Request)
    (headers : list header) (auth : pyval) (w : world E) :
  py_eq_str auth "Basic" = false -> py_eq_str auth "Token" = false ->
  run oracle (_http_opener self req headers auth) w =
  (Val (opener_with self req auth headers), w, []).
Proof.
  intros Hbasic Htoken. unfold _http_opener. rewrite Hbasic, Htoken. simpl.
  rewrite handlers_join. reflexivity.
Qed.

(** A cached token is stale, or it is there and either never expires or
    expires later. *)
Lemma token_state (self : S3PaymentService) (now : Z) :
  stale self now \/
  exists tok, access_token self = Some tok /\ tok <> "" /\
    (token_expiry_date self = None \/
     exists d, token_expiry_date self = Some d /\ now < d).
Proof.
  destruct (access_token self) as [tok |] eqn:Htok; [| left; now left].
  destruct (String.eqb_spec tok "") as [-> | Hne]; [left; right; now left |].
  destruct (token_expiry_date self) as [d |] eqn:Hexp.
  - destruct (Z.le_gt_cases d now) as [Hle | Hgt].
    + left. right; right. now exists d.
    + right. exists tok. repeat split; try assumption. right. now exists d.
  - right. exists tok. repeat split; try assumption. now left.
Qed.

Lemma nothing_opened (t : list call) (c : call) :
  filter is_OpenerOpen t = [] -> In c t -> is_OpenerOpen c = false.
Proof.
  intros Hnone Hin. destruct (is_OpenerOpen c) eqn:Hc; [| reflexivity].
  assert (Hf : c ∈ filter is_OpenerOpen t).
  { apply list_elem_of_filter. split; [now rewrite Hc | now apply list_elem_of_In]. }
  rewrite Hnone in Hf. now apply elem_of_nil in Hf.
Qed.

(** Whatever the authentication mode, [_http_opener] sends nothing itself,
    asks for a token at most once and only for token authentication, and
    the handlers of the opener it returns do not depend on the headers. *)
Lemma run_opener_shape (self : S3PaymentService) (req : Request)
    (headers : list header) (auth : pyval) (w : world E) :
  let y := run oracle (_http_opener self req headers auth) w in
  filter is_OpenerOpen (trace y) = [] /\
  (refreshes (trace y) <= 1)%nat /\
  (refreshes (trace y) = 1%nat ->
   auth = PyStr "Token" /\ stale self (request_utcnow w)) /\
  (forall o, outcome y = Val o ->
             handlers o = handlers (opener_with self req auth [])).
Proof.
  intros y. subst y.
  destruct (py_eq_str auth "Basic") eqn:Hbasic.
  { apply py_eq_str_true in Hbasic as ->. rewrite run_opener_basic.
    unfold trace, outcome, refreshes. simpl.
    repeat split; try lia; try discriminate. now intros o [= <-]. }
  destruct (py_eq_str auth "Token") eqn:Htoken.
  2: { rewrite (run_opener_plain self req headers auth w Hbasic Htoken).
       unfold trace, outcome, refreshes. simpl.
       repeat split; try lia; try discriminate. now intros o [= <-]. }
  apply py_eq_str_true in Htoken as ->.
  destruct (token_state self (request_utcnow w))
    as [Hstale | (tok & Htok & Hne & [Hexp | (d & Hexp & Hlt)])].
  - rewrite (run_opener_token_stale oracle self req headers w Hstale).
    assert (Hreads : filter is_OpenerOpen (clock_reads self) = [] /\
                     refreshes (clock_reads self) = 0%nat).
    { unfold clock_reads. destruct (truthy_str (access_token self)); now split. }
    destruct Hreads as [Hopen Hzero].
    unfold trace, outcome, refreshes in *. simpl.
    rewrite !filter_app, !length_app, Hopen, Hzero. simpl.
    repeat split; try lia; try assumption.
    intros o. destruct (oracle (GetAccessToken self) w) as [[t | e] w1]; simpl.
    + now intros [= <-].
    + destruct e; try discriminate. now intros [= <-].
  - rewrite (run_opener_token_no_expiry oracle self req headers tok w Htok Hne Hexp).
    unfold trace, outcome, refreshes. simpl.
    repeat split; try lia; try discriminate. now intros o [= <-].
  - rewrite (run_opener_token_fresh oracle self req headers tok d w Htok Hne Hexp Hlt).
    unfold trace, outcome, refreshes. simpl.
    repeat split; try lia; try discriminate. now intros o [= <-].
Qed.

Section Sending.

Variables (self : S3PaymentService) (method : string)
  (path : option string) (args : list (string * string)) (data : pyval)
  (headers : list header) (auth : pyval) (encode decode : string)
  (w : world E).

Let req := fst (http_request self method path args data encode decode).
Let dat := snd (http_request self method path args data encode decode).
Let x :=
  run oracle (http self method path args data headers auth encode decode) w.

(** X3.  [http()] itself calls [opener.open] at most once and
    [get_access_token] at most once, the latter only with [auth = "Token"]
    and a stale token.  The request it hands to [opener.open] is the one it
    built, and that call is the last thing it does.  What [opener.open]
    does with the request is the opener's business: with the handler for
    401 responses installed, the opener may send the request a second time
    with the credentials, inside that one call. *)
Theorem http_opens_at_most_once :
  (length (filter is_OpenerOpen (trace x)) <= 1)%nat /\
  (refreshes (trace x) <= 1)%nat /\
  (refreshes (trace x) = 1%nat ->
   auth = PyStr "Token" /\ stale self (request_utcnow w)) /\
  (forall o r d pre post,
     trace x = pre ++ OpenerOpen o r d :: post ->
     r = req /\ d = dat /\ post = []).
Proof.
  subst x. destruct (truthy_str (base_url self)) eqn:Hbase.
  2: { unfold http. rewrite Hbase. unfold trace, refreshes. simpl.
       split; [lia |]. split; [lia |]. split; [discriminate |].
       intros o r d pre post Heq. destruct pre; discriminate. }
  rewrite (run_http oracle _ _ _ _ _ _ _ _ _ _ Hbase). fold req dat.
  destruct (run_opener_shape self req headers auth w)
    as (Hopen & Hle & Hone & _).
  destruct (run oracle (_http_opener self req headers auth) w)
    as [[[o | e] w1] t1]; unfold trace, refreshes in *; simpl in *.
  - rewrite !filter_app, !length_app, Hopen. simpl.
    split; [lia |]. split; [lia |]. split; [intros H; apply Hone; lia |].
    intros o' r d pre post Heq.
    assert (Hin : forall c, In c t1 -> is_OpenerOpen c = false)
      by (intros c; now apply nothing_opened).
    clear Hopen Hle Hone. revert pre Heq.
    induction t1 as [| c t1 IH]; intros pre Heq.
    + destruct pre as [| c' pre]; simpl in Heq.
      * injection Heq as Ho Hr Hd Hpost. repeat split; congruence.
      * injection Heq as _ Heq. destruct pre; discriminate.
    + destruct pre as [| c' pre]; simpl in Heq.
      * injection Heq as Hc _.
        specialize (Hin c (or_introl eq_refl)). rewrite Hc in Hin. discriminate.
      * injection Heq as _ Heq. apply (IH (fun c0 H0 => Hin c0 (or_intror H0)) pre Heq).
  - rewrite Hopen. split; [simpl; lia |]. split; [exact Hle |].
    split; [exact Hone |].
    intros o' r d pre post Heq.
    assert (Hin : In (OpenerOpen o' r d) t1) by (rewrite Heq; apply in_elt).
    apply (nothing_opened _ _ Hopen) in Hin. discriminate.
Qed.

(** X4.  The handlers of the opener that sends the request depend on the
    configuration alone and not on how authentication went: a proxy handler
    for the scheme of the request exactly when a proxy is configured and
    enabled, and after it the handler that answers a 401 with the
    configured username and password exactly when [auth] is true in Python's
    sense and both are set. *)
Theorem opener_handlers_follow_configuration (o : opener) (r : Request)
    (d : option string) :
  In (OpenerOpen o r d) (trace x) ->
  handlers o =
    (if truthy_str (proxy self) && use_proxy self
     then [ProxyHandler (req_type req) (fmt_ostr (proxy self))] else []) ++
    (if truthy auth && truthy_str (username self) && truthy_str (password self)
     then [HTTPBasicAuthHandler None (req_url req)
             (fmt_ostr (username self)) (fmt_ostr (password self))]
     else []).
Proof.
  subst x. destruct (truthy_str (base_url self)) eqn:Hbase.
  2: { unfold http. rewrite Hbase. simpl. intros []. }
  rewrite (run_http oracle _ _ _ _ _ _ _ _ _ _ Hbase). fold req dat.
  destruct (run_opener_shape self req headers auth w)
    as (Hopen & _ & _ & Hhandlers).
  destruct (run oracle (_http_opener self req headers auth) w)
    as [[[o' | e] w1] t1]; unfold trace, outcome in *; simpl in *; intros Hin.
  - apply in_app_or in Hin as [Hin | [Heq | []]].
    + apply (nothing_opened _ _ Hopen) in Hin. discriminate.
    + injection Heq as <- _ _. exact (Hhandlers o' eq_refl).
  - apply (nothing_opened _ _ Hopen) in Hin. discriminate.
Qed.

End Sending.

End OpenerProperties.

Section AuthModes.

Context {L : Library} {E : Type}.
Variable oracle : forall c : call, world E -> result (answer c) * world E.

Variables (self : S3PaymentService) (method : string)
  (path : option string) (args : list (string * string)) (data : pyval)
  (headers : list header) (encode decode : string) (w : world E).

Let req := fst (http_request self method path args data encode decode).
Let dat := snd (http_request self method path args data encode decode).

(** X5.  [http()] with [auth = "Basic"] reads no clock and asks for no
    token: its only call is the request.  With a username and a password
    the opener sends the Basic header made from them after the caller's
    headers; if either is missing or empty, the request goes out without an
    Authorization header of the opener's making and without the handler for
    a 401. *)
Theorem basic_auth_needs_both_credentials :
  truthy_str (base_url self) = true ->
  let x :=
    run oracle
      (http self method path args data headers (PyStr "Basic") encode decode) w in
  exists o,
    trace x = [OpenerOpen o req dat] /\
    final x = snd (oracle (OpenerOpen o req dat) w) /\
    (truthy_str (username self) = true -> truthy_str (password self) = true ->
     addheaders o = headers ++ [basic_header self] /\
     In (HTTPBasicAuthHandler None (req_url req)
           (fmt_ostr (username self)) (fmt_ostr (password self))) (handlers o)) /\
    (truthy_str (username self) = false \/ truthy_str (password self) = false ->
     addheaders o = match headers with
                    | [] => default_addheaders
                    | _ => headers
                    end /\
     forall realm uri user passwd,
       ~ In (HTTPBasicAuthHandler realm uri user passwd) (handlers o)).
Proof.
  intros Hbase x. subst x.
  rewrite (run_http oracle _ _ _ _ _ _ _ _ _ _ Hbase). fold req dat.
  rewrite run_opener_basic. eexists. split; [reflexivity |].
  split; [reflexivity |]. split.
  - intros Hu Hp. rewrite Hu, Hp. simpl andb. cbv iota. split.
    + apply addheaders_opener_with_app.
    + simpl. rewrite Hu, Hp. simpl. apply in_or_app. right. now left.
  - intros Hmissing.
    assert (Hup : truthy_str (username self) && truthy_str (password self) = false).
    { destruct Hmissing as [-> | ->]; [reflexivity | apply andb_false_r]. }
    rewrite Hup. split; [reflexivity |].
    intros realm uri user passwd Hin. simpl in Hin.
    rewrite Hup, app_nil_r in Hin.
    destruct (truthy_str (proxy self) && use_proxy self);
      [destruct Hin as [Hin | []]; discriminate | destruct Hin].
Qed.

(** X6.  [http()] with an [auth] that is false in Python's sense ([False],
    [None], the empty string) does no authentication at all: its only call
    is the request, the opener sends the caller's headers (or its own, if
    there are none) and has no handler for a 401, also when a username and a
    password are configured. *)
Theorem no_auth_adds_nothing (auth : pyval) :
  truthy_str (base_url self) = true ->
  truthy auth = false ->
  let x :=
    run oracle (http self method path args data headers auth encode decode) w in
  exists o,
    trace x = [OpenerOpen o req dat] /\
    final x = snd (oracle (OpenerOpen o req dat) w) /\
    addheaders o = match headers with
                   | [] => default_addheaders
                   | _ => headers
                   end /\
    forall realm uri user passwd,
      ~ In (HTTPBasicAuthHandler realm uri user passwd) (handlers o).
Proof.
  intros Hbase Hauth x. subst x.
  assert (Hplain : py_eq_str auth "Basic" = false /\ py_eq_str auth "Token" = false).
  { destruct auth; try (split; reflexivity).
    simpl in Hauth. apply negb_false_iff, String.eqb_eq in Hauth. subst s.
    split; reflexivity. }
  destruct Hplain as [Hbasic Htoken].
  rewrite (run_http oracle _ _ _ _ _ _ _ _ _ _ Hbase). fold req dat.
  rewrite (run_opener_plain oracle self req headers auth w Hbasic Htoken).
  eexists. split; [reflexivity |]. split; [reflexivity |].
  split; [reflexivity |].
  intros realm uri user passwd Hin. simpl in Hin.
  rewrite Hauth, app_nil_r in Hin.
  destruct (truthy_str (proxy self) && use_proxy self);
    [destruct Hin as [Hin | []]; discriminate | destruct Hin].
Qed.

(** X7.  When the refresh of a stale token succeeds, the request is sent
    right after it, in the world the refresh left, with the new token in
    the Authorization header, under the token type the service had before
    the refresh (or Bearer). *)
Theorem refreshed_token_is_sent (tok : string) (w1 : world E) :
  truthy_str (base_url self) = true ->
  stale self (request_utcnow w) ->
  oracle (GetAccessToken self) w = (Val (Some tok), w1) ->
  tok <> "" ->
  let x :=
    run oracle
      (http self method path args data headers (PyStr "Token") encode decode) w in
  let o := opener_with self req (PyStr "Token")
             (headers ++ [token_header self tok]) in
  trace x = clock_reads self ++ [GetAccessToken self; OpenerOpen o req dat] /\
  addheaders o = headers ++ [token_header self tok] /\
  outcome x = http_response decode (fst (oracle (OpenerOpen o req dat) w1)) /\
  final x = snd (oracle (OpenerOpen o req dat) w1).
Proof.
  intros Hbase Hstale Horacle Hne x o. subst x.
  rewrite (run_http oracle _ _ _ _ _ _ _ _ _ _ Hbase). fold req dat.
  rewrite (run_opener_token_stale oracle self req headers w Hstale), Horacle.
  simpl fst. simpl snd. cbv iota. rewrite (truthy_str_some tok Hne).
  simpl fmt_ostr. fold o. unfold trace, outcome, final. simpl.
  rewrite <- app_assoc. split; [reflexivity |].
  split; [destruct headers; reflexivity |]. split; reflexivity.
Qed.

End AuthModes.

(* ===================================================================== *)
(** ** What [http()] returns and what it raises *)
(* ===================================================================== *)

Section FailureProperties.

Context {L : Library} {F : Faults} {E : Type}.
Variable oracle : forall c : call, world E -> result (answer c) * world E.

(** A request that [Checked.http_request] builds is the one
    [http_request] describes. *)
Lemma http_request_value (self : S3PaymentService) (method : string)
    (path : option string) (args : list (string * string)) (data : pyval)
    (encode decode : string) (built : Request * option string) :
  Checked.http_request self method path args data encode decode = Val built ->
  built = http_request self method path args data encode decode.
Proof.
  unfold Checked.http_request, http_request, checked, and_then.
  destruct args as [| arg args];
    [| destruct (urlencode_fault (arg :: args)); [discriminate |]];
    (destruct (Request_fault _ method); [discriminate |]);
    (destruct (String.eqb method "GET"); [now intros [= <-] |]);
    (destruct (truthy data); [| now intros [= <-]]);
    (destruct (String.eqb encode "json");
       [destruct (json_dumps_fault data); [discriminate | now intros [= <-]] |]);
    (destruct (String.eqb encode "text");
       (destruct (s3_str_fault data); [discriminate | now intros [= <-]])).
Qed.

(** Where no library call raises, the request is built. *)
Lemma http_request_no_fault (self : S3PaymentService) (method : string)
    (path : option string) (args : list (string * string)) (data : pyval)
    (encode decode : string) :
  (forall a, urlencode_fault a = None) ->
  (forall u m, Request_fault u m = None) ->
  (forall v, json_dumps_fault v = None) ->
  (forall v, s3_str_fault v = None) ->
  Checked.http_request self method path args data encode decode =
  Val (http_request self method path args data encode decode).
Proof.
  intros Hurl Hreq Hjson Hstr.
  unfold Checked.http_request, http_request, checked, and_then.
  rewrite Hjson, Hstr.
  destruct args as [| arg args]; [| rewrite Hurl]; rewrite Hreq;
    destruct (String.eqb method "GET"); try reflexivity;
    destruct (truthy data); try reflexivity;
    destruct (String.eqb encode "json"); try reflexivity;
    destruct (String.eqb encode "text"); reflexivity.
Qed.

Lemma http_response_no_fault (decode : string) (opened : result HTTPResponse) :
  (forall v, s3_str_fault v = None) ->
  Checked.http_response decode opened = http_response decode opened.
Proof.
  intros Hstr. unfold Checked.http_response, http_response, checked, and_then.
  destruct opened as [f | e].
  - now rewrite Hstr.
  - destruct e; try reflexivity. now rewrite Hstr.
Qed.

(** [Checked.http] with a base URL: an exception while the request is
    built leaves it at once; otherwise it obtains the opener, opens the
    request once and fills the slots from what came back. *)
Lemma run_checked_http (self : S3PaymentService) (method : string)
    (path : option string) (args : list (string * string)) (data : pyval)
    (headers : list header) (auth : pyval) (encode decode : string)
    (w : world E) :
  truthy_str (base_url self) = true ->
  run oracle
    (Checked.http self method path args data headers auth encode decode) w =
  match Checked.http_request self method path args data encode decode with
  | Exc e => (Exc e, w, [])
  | Val (req, dat) =>
      match run oracle (_http_opener self req headers auth) w with
      | (Val o, w1, t1) =>
          (Checked.http_response decode (fst (oracle (OpenerOpen o req dat) w1)),
           snd (oracle (OpenerOpen o req dat) w1),
           t1 ++ [OpenerOpen o req dat])
      | (Exc e, w1, t1) => (Exc e, w1, t1)
      end
  end.
Proof.
  intros Hbase. unfold Checked.http. rewrite Hbase. simpl negb. cbv iota.
  rewrite run_bind, run_lift.
  destruct (Checked.http_request self method path args data encode decode)
    as [[req dat] | e]; [| reflexivity].
  cbn [fst snd]. rewrite run_bind.
  destruct (run oracle (_http_opener self req headers auth) w)
    as [[[o | e] w1] t1]; [| reflexivity].
  rewrite run_bind, run_attempt_perform, run_lift. reflexivity.
Qed.

(** Where no library call raises, [Checked.http] runs as [http] does. *)
Lemma checked_http_agrees (self : S3PaymentService) (method : string)
    (path : option string) (args : list (string * string)) (data : pyval)
    (headers : list header) (auth : pyval) (encode decode : string)
    (w : world E) :
  (forall a, urlencode_fault a = None) ->
  (forall u m, Request_fault u m = None) ->
  (forall v, json_dumps_fault v = None) ->
  (forall v, s3_str_fault v = None) ->
  run oracle
    (Checked.http self method path args data headers auth encode decode) w =
  run oracle (http self method path args data headers auth encode decode) w.
Proof.
  intros Hurl Hreq Hjson Hstr.
  destruct (truthy_str (base_url self)) eqn:Hbase.
  - rewrite (run_checked_http _ _ _ _ _ _ _ _ _ _ Hbase).
    rewrite (run_http oracle _ _ _ _ _ _ _ _ _ _ Hbase).
    rewrite (http_request_no_fault _ _ _ _ _ _ _ Hurl Hreq Hjson Hstr).
    destruct (http_request self method path args data encode decode)
      as [req dat]. simpl fst. simpl snd.
    destruct (run oracle (_http_opener self req headers auth) w)
      as [[[o | e] w1] t1]; [| reflexivity].
    now rewrite (http_response_no_fault _ _ Hstr).
  - unfold Checked.http, http. rewrite Hbase. reflexivity.
Qed.

(** [_http_opener] raises only what a refresh of the token raised, and
    then nothing but the refresh was called. *)
Lemma opener_exception (self : S3PaymentService) (req : Request)
    (headers : list header) (auth : pyval) (w : world E) (e : exn) :
  outcome (run oracle (_http_opener self req headers auth) w) = Exc e ->
  auth = PyStr "Token" /\ stale self (request_utcnow w) /\
  fst (oracle (GetAccessToken self) w) = Exc e /\
  e <> NotImplementedError /\
  trace (run oracle (_http_opener self req headers auth) w) =
    clock_reads self ++ [GetAccessToken self].
Proof.
  destruct (py_eq_str auth "Basic") eqn:Hbasic.
  { apply py_eq_str_true in Hbasic as ->. rewrite run_opener_basic.
    discriminate. }
  destruct (py_eq_str auth "Token") eqn:Htoken.
  2: { rewrite (run_opener_plain oracle self req headers auth w Hbasic Htoken).
       discriminate. }
  apply py_eq_str_true in Htoken as ->.
  destruct (token_state self (request_utcnow w))
    as [Hstale | (tok & Htok & Hne & [Hexp | (d & Hexp & Hlt)])].
  - rewrite (run_opener_token_stale oracle self req headers w Hstale).
    unfold outcome, trace. simpl.
    destruct (oracle (GetAccessToken self) w) as [[t | e'] w1]; simpl;
      [discriminate |].
    destruct e'; try discriminate; intros [= <-]; repeat split;
      try assumption; discriminate.
  - rewrite (run_opener_token_no_expiry oracle self req headers tok w Htok Hne Hexp).
    discriminate.
  - rewrite (run_opener_token_fresh oracle self req headers tok d w Htok Hne Hexp Hlt).
    discriminate.
Qed.

(** The slots by what [opener.open] did. *)
Lemma http_response_table (decode : string) (opened : result HTTPResponse) :
  let outcome := Checked.http_response decode opened in
  (forall status content,
     opened = Exc (HTTPError status content) ->
     outcome =
     match s3_str_fault (PyBytes content) with
     | None => Val (PyNone, PyInt status, PyStr (s3_str (PyBytes content)))
     | Some e => Exc e
     end) /\
  (forall reason,
     opened = Exc (URLError reason) ->
     outcome =
     Val (PyNone, PyNone,
          if truthy reason then reason else PyStr "Unknown network error")) /\
  (forall e,
     opened = Exc e ->
     (forall status content, e <> HTTPError status content) ->
     (forall reason, e <> URLError reason) ->
     outcome = Val (PyNone, PyNone, PyExc e)) /\
  (forall f e,
     opened = Val f -> outcome = Exc e ->
     (decode = "json" /\ json_load f = Exc e /\ JSONERRORS e = false) \/
     (decode <> "json" /\ decode = "text" /\
      s3_str_fault (PyBytes (body f)) = Some e)) /\
  (forall out st err,
     outcome = Val (out, st, err) ->
     populated out && populated err = false /\
     (populated out = false -> populated err = false ->
      exists f, opened = Val f /\ decode = "json" /\ json_load f = Val PyNone) /\
     (forall f, opened = Val f -> st = PyInt (code f)) /\
     (forall status content,
        opened = Exc (HTTPError status content) -> st = PyInt status)).
Proof.
  intros outcome. subst outcome.
  unfold Checked.http_response, checked, and_then.
  destruct opened as [f | e0].
  - split; [discriminate |]. split; [discriminate |].
    split; [discriminate |].
    destruct (String.eqb_spec decode "json") as [Hjson | Hjson].
    + destruct (json_load f) as [v | e] eqn:Hload.
      * split; [discriminate |].
        intros out st err [= <- <- <-]. repeat split.
        -- unfold populated. simpl. apply andb_false_r.
        -- intros Hout _. exists f.
           destruct v; try discriminate Hout. now repeat split.
        -- now intros f' [= <-].
        -- discriminate.
      * destruct (JSONERRORS e) eqn:Herrors.
        -- split; [discriminate |].
           intros out st err [= <- <- <-]. repeat split.
           ++ intros _ Herr. discriminate Herr.
           ++ now intros f' [= <-].
           ++ discriminate.
        -- split; [| discriminate].
           intros f' e1 [= <-] [= <-]. left. now repeat split.
    + destruct (String.eqb_spec decode "text") as [Htext | Htext].
      * destruct (s3_str_fault (PyBytes (body f))) as [e |] eqn:Hfault.
        -- split; [| discriminate].
           intros f' e1 [= <-] [= <-]. right. now repeat split.
        -- split; [discriminate |].
           intros out st err [= <- <- <-]. repeat split.
           ++ intros Hout. discriminate Hout.
           ++ now intros f' [= <-].
           ++ discriminate.
      * split; [discriminate |].
        intros out st err [= <- <- <-]. repeat split.
        -- intros Hout. discriminate Hout.
        -- now intros f' [= <-].
        -- discriminate.
  - split.
    { intros status content [= ->].
      destruct (s3_str_fault (PyBytes content)); reflexivity. }
    split; [now intros reason [= ->] |].
    split.
    { intros e [= <-] Hhttp Hurl. destruct e0; try reflexivity.
      - now destruct (Hhttp status content).
      - now destruct (Hurl reason). }
    split; [discriminate |].
    intros out st err Hx.
    assert (Hshape : out = PyNone /\ populated err = true /\
                     forall status content,
                       e0 = HTTPError status content -> st = PyInt status).
    { destruct e0; try (injection Hx as <- <- <-; now repeat split).
      - destruct (s3_str_fault (PyBytes content)); [discriminate |].
        injection Hx as <- <- <-. repeat split. now intros ? ? [= <- _].
      - injection Hx as <- <- <-. split; [reflexivity |]. split.
        + destruct (truthy reason) eqn:Hr; [| reflexivity].
          destruct reason; try reflexivity. discriminate Hr.
        + discriminate. }
    destruct Hshape as (-> & Herr & Hstatus). repeat split.
    + intros _ Herr'. rewrite Herr in Herr'. discriminate.
    + discriminate.
    + intros status content [= ->]. exact (Hstatus _ _ eq_refl).
Qed.

Section Call.

Variables (self : S3PaymentService) (method : string)
  (path : option string) (args : list (string * string)) (data : pyval)
  (headers : list header) (auth : pyval) (encode decode : string)
  (w : world E).

Let x :=
  run oracle
    (Checked.http self method path args data headers auth encode decode) w.


End Call.

End FailureProperties.



(* ===================================================================== *)
(** ** Further properties: the factory and the REST methods *)
(* ===================================================================== *)

Section MethodProperties.

Context {L : Library} {E : Type}.
Variable oracle : forall c : call, world E -> result (answer c) * world E.

Lemma run_try_except_exc {A : Type} (p : prog A) (catches : exn -> bool)
    (h : exn -> prog A) (w w1 : world E) (e : exn) (t1 : list call) :
  run oracle p w = (Exc e, w1, t1) ->
  run oracle (try_except p catches h) w =
  if catches e
  then let '(res, w2, t2) := run oracle (h e) w1 in (res, w2, t1 ++ t2)
  else (Exc e, w1, t1).
Proof.
  revert w t1. induction p as [a | e' | c k IH]; intros w t1; simpl.
  - discriminate.
  - intros [= -> <- <-]. destruct (catches e); [| reflexivity].
    destruct (run oracle (h e) w) as [[res w2] t2]. reflexivity.
  - destruct (handle oracle c w) as [r w'].
    destruct (run oracle (k r) w') as [[res w2] t] eqn:Hk.
    intros [= -> -> <-]. rewrite (IH r w' t Hk).
    destruct (catches e); [| reflexivity].
    destruct (run oracle (h e) w1) as [[res' w3] t3]. reflexivity.
Qed.

Lemma adapters_lookup (row : ServiceRow) :
  api_type row ≫= (adapters !!.) =
  if col_eq_str (api_type row) "PAYPAL" then Some PayPalAdapter else None.
Proof.
  unfold adapters. destruct (api_type row) as [s |]; simpl; [| reflexivity].
  destruct (String.eqb_spec s "PAYPAL") as [-> | Hne].
  - apply lookup_singleton_eq.
  - apply lookup_singleton_ne. congruence.
Qed.

Lemma col_eq_str_spec (column : option string) (s : string) :
  col_eq_str column s = true <-> column = Some s.
Proof.
  destruct column as [s' |]; simpl; [| split; discriminate].
  rewrite String.eqb_eq. split; congruence.
Qed.

(** The factory asks for the configuration once and decides on the first
    row alone. *)
Lemma run_adapter (sid : Z) (w : world E) :
  run oracle (adapter sid) w =
  (match fst (oracle (SelectService sid) w) with
   | Exc e => Exc e
   | Val [] =>
       Exc (KeyError ("Payment service configuration #" +:+ pretty sid +:+
                      " not found"))
   | Val (row :: _) =>
       if col_eq_str (api_type row) "PAYPAL"
       then Val {| cls := PayPalAdapter; svc := init_service row |}
       else Exc (ValueError ("Invalid API type: " +:+ fmt_ostr (api_type row)))
   end,
   snd (oracle (SelectService sid) w), [SelectService sid]).
Proof.
  unfold adapter. simpl.
  destruct (oracle (SelectService sid) w) as [[rows | e] w1]; simpl;
    [| reflexivity].
  destruct rows as [| row rest]; simpl; [reflexivity |].
  rewrite adapters_lookup.
  destruct (col_eq_str (api_type row) "PAYPAL"); reflexivity.
Qed.

(** X8.  The factory makes one call, the lookup of the configuration.  No
    row gives a [KeyError] that names the service; a first row of type
    "PAYPAL" gives a PayPal adapter with the configuration of that row,
    whatever rows follow; a first row of any other type, or of none, gives
    a [ValueError] that names the type. *)
Theorem adapter_factory_outcomes (sid : Z) (rows : list ServiceRow)
    (w w1 : world E) :
  oracle (SelectService sid) w = (Val rows, w1) ->
  let y := run oracle (adapter sid) w in
  trace y = [SelectService sid] /\ final y = w1 /\
  (rows = [] ->
   outcome y = Exc (KeyError ("Payment service configuration #" +:+
                              pretty sid +:+ " not found"))) /\
  (forall row rest,
     rows = row :: rest -> api_type row = Some "PAYPAL" ->
     outcome y = Val {| cls := PayPalAdapter; svc := init_service row |} /\
     base_url (init_service row) = row_base_url row /\
     access_token (init_service row) = row_access_token row /\
     service_id (init_service row) = row_id row) /\
  (forall row rest,
     rows = row :: rest -> api_type row <> Some "PAYPAL" ->
     outcome y = Exc (ValueError ("Invalid API type: " +:+
                                  fmt_ostr (api_type row)))).
Proof.
  intros Horacle y. subst y. rewrite run_adapter, Horacle.
  unfold trace, final, outcome. simpl.
  split; [reflexivity |]. split; [reflexivity |]. split; [| split].
  - intros ->. reflexivity.
  - intros row rest -> Htype.
    rewrite (proj2 (col_eq_str_spec _ _) Htype). repeat split.
  - intros row rest -> Htype.
    destruct (col_eq_str (api_type row) "PAYPAL") eqn:Hc; [| reflexivity].
    apply col_eq_str_spec in Hc. contradiction.
Qed.

(** X9.  Without a record, or with a record that names no service,
    [confirm_subscription] is the bare rejection with status 405 and
    "Invalid record": it looks up no adapter, checks nothing and sets no
    notice. *)
Theorem confirm_rejects_missing_record (r : S3Request) (w : world E) :
  record r = None \/
  (exists rec, record r = Some rec /\
     (rec_service_id rec = None \/ rec_service_id rec = Some 0)) ->
  confirm_subscription r = Raise (HTTP 405 "Invalid record") /\
  run oracle (confirm_subscription r) w = (Exc (HTTP 405 "Invalid record"), w, []).
Proof.
  intros H.
  assert (Hp : confirm_subscription r = Raise (HTTP 405 "Invalid record")).
  { unfold confirm_subscription.
    destruct H as [-> | (rec & -> & [-> | ->])]; reflexivity. }
  rewrite Hp. split; reflexivity.
Qed.

Section Rejections.

Variables (r : S3Request) (rec : Row) (sid : Z) (w w1 : world E).

Hypothesis Hrecord : record r = Some rec.
Hypothesis Hservice : rec_service_id rec = Some sid.
Hypothesis Hsid : sid <> 0.

Let x := run oracle (confirm_subscription r) w.

(** X10.  When the service of the record has no configuration, or one of
    a type without an adapter, [confirm_subscription] ends with status 405
    and "Invalid payment service" after the one lookup: the errors of the
    factory do not reach the caller, nothing is checked with the provider
    and no notice is set. *)
Theorem confirm_rejects_unknown_service (rows : list ServiceRow) :
  oracle (SelectService sid) w = (Val rows, w1) ->
  rows = [] \/
  (exists row rest, rows = row :: rest /\ api_type row <> Some "PAYPAL") ->
  outcome x = Exc (HTTP 405 "Invalid payment service") /\
  final x = w1 /\
  trace x = [SelectService sid].
Proof.
  intros Horacle Hrows. subst x. unfold confirm_subscription.
  rewrite Hrecord, Hservice, (proj2 (Z.eqb_neq sid 0) Hsid), run_bind.
  assert (Hfail : exists e, is_KeyError_or_ValueError e = true /\
            run oracle (adapter sid) w = (Exc e, w1, [SelectService sid])).
  { rewrite run_adapter, Horacle. simpl.
    destruct Hrows as [-> | (row & rest & -> & Htype)].
    - eexists. split; [| reflexivity]. reflexivity.
    - destruct (col_eq_str (api_type row) "PAYPAL") eqn:Hc.
      + apply col_eq_str_spec in Hc. contradiction.
      + eexists. split; [| reflexivity]. reflexivity. }
  destruct Hfail as (e & Hcatch & Hrun).
  rewrite (run_try_except_exc _ _ _ _ _ _ _ Hrun), Hcatch. repeat split.
Qed.

(** X11.  When the reference check of the adapter fails,
    [confirm_subscription] ends with status 405 and "Invalid reference"
    right after the adapter was found: [check_subscription] is not called,
    and the world, with its notices and its log, is as the lookup left it. *)
Theorem confirm_rejects_bad_reference (a : PaymentAdapter) (t1 : list call) :
  run oracle (adapter sid) w = (Val a, w1, t1) ->
  cls_verify_reference (cls a) r = false ->
  outcome x = Exc (HTTP 405 "Invalid reference") /\
  final x = w1 /\
  trace x = t1.
Proof.
  intros Hadapter Hverify. subst x. unfold confirm_subscription.
  rewrite Hrecord, Hservice, (proj2 (Z.eqb_neq sid 0) Hsid), run_bind.
  rewrite (run_try_except_val oracle _ _ _ _ _ _ _ Hadapter), Hverify.
  unfold trace, final, outcome. simpl. now rewrite app_nil_r.
Qed.

End Rejections.

(** Whenever [confirm_subscription] returns, it returns the same thing:
    an empty output, the request turned into a POST and [next] set from it. *)
Lemma confirm_returns_post (r : S3Request) (w : world E) (m : MethodResult) :
  outcome (run oracle (confirm_subscription r) w) = Val m ->
  m = {| output := []; r_after := set_http "POST" r;
         next := r_url (set_http "POST" r) "" |}.
Proof.
  unfold confirm_subscription.
  destruct (record r) as [rec |]; [| discriminate].
  destruct (rec_service_id rec) as [sid |]; [| discriminate].
  destruct (Z.eqb sid 0); [discriminate |].
  rewrite run_bind.
  destruct (run oracle (try_except (adapter sid) is_KeyError_or_ValueError
                          (fun _ => r_error 405 "Invalid payment service")) w)
    as [[[a | e] w1] t1]; [| discriminate].
  destruct (cls_verify_reference (cls a) r); simpl negb; cbv iota;
    [| discriminate].
  rewrite run_bind, run_perform. simpl handle.
  destruct (oracle (CheckSubscription a (id rec)) w1) as [[status | e] w2];
    simpl fst; simpl snd; cbv iota; [| discriminate].
  destruct (py_eq_str (of_ostr status) "ACTIVE");
    [| destruct (py_eq_str (of_ostr status) "APPROVED");
       [| destruct (truthy_str status)]];
    unfold outcome; simpl; now intros [= <-].
Qed.

Section DispatchProperties.

Variable BAD_METHOD : string.
Variable cancel_subscription : S3Request -> prog MethodResult.

(** X12.  [apply_method] serves GET requests for the methods confirm and
    cancel only: any other request is rejected with status 405 before
    anything is called, whatever the cancel method does.  A confirm request
    is handled by [confirm_subscription]; the request that this leaves
    behind is a POST, so putting it to [apply_method] again is rejected. *)
Theorem apply_method_serves_get_only (r : S3Request) (w w' : world E) :
  (r_http r <> "GET" \/ (r_method r <> "confirm" /\ r_method r <> "cancel") ->
   apply_method BAD_METHOD cancel_subscription r = Raise (HTTP 405 BAD_METHOD)) /\
  (r_http r = "GET" -> r_method r = "confirm" ->
   apply_method BAD_METHOD cancel_subscription r = confirm_subscription r) /\
  (forall m,
     outcome (run oracle (apply_method BAD_METHOD cancel_subscription r) w) = Val m ->
     r_http r = "GET" -> r_method r = "confirm" ->
     run oracle (apply_method BAD_METHOD cancel_subscription (r_after m)) w' =
     (Exc (HTTP 405 BAD_METHOD), w', [])).
Proof.
  unfold apply_method. split; [| split].
  - intros [Hhttp | [Hconfirm Hcancel]].
    + now rewrite (proj2 (String.eqb_neq _ _) Hhttp).
    + rewrite (proj2 (String.eqb_neq _ _) Hconfirm),
        (proj2 (String.eqb_neq _ _) Hcancel).
      destruct (String.eqb (r_http r) "GET"); reflexivity.
  - intros -> ->. reflexivity.
  - intros m Hm Hhttp Hmethod. rewrite Hhttp, Hmethod in Hm. simpl in Hm.
    apply confirm_returns_post in Hm. subst m. reflexivity.
Qed.

End DispatchProperties.

End MethodProperties.

(* ===================================================================== *)
(** ** Further properties: the log writer *)
(* ===================================================================== *)

Section MoreLogProperties.

Context {E : Type}.
Variable oracle : forall c : call, world E -> result (answer c) * world E.

(** X13.  [write] guards none of its calls, so it stops at the first
    one that fails and raises what that call raised.  With a non-empty
    action and result it reads the clock, inserts the entry stamped with
    the time it read, and only after the insert has succeeded, and only for
    the results ERROR and FATAL, writes the failure line to the log file.
    A clock that fails means no insert; an insert that fails means no line
    in the log file; a log file that fails makes [write] raise although the
    entry is stored.  If no call fails, [write] returns normally.  It
    changes the context through these calls alone. *)
Theorem write_stops_at_first_failure
    (answers : forall c : call, world E -> result (answer c) * world E)
    (sid : Z) (a res : string) (reason : option string) (w : world E) :
  a <> "" -> res <> "" ->
  let x := exec answers (S3PaymentLog.write sid (Some a) (Some res) reason) w in
  let entry now := {| date := now; log_service_id := sid;
                      log_action := Some a; log_result := Some res;
                      log_reason := reason |} in
  let line := failure_line sid a reason in
  let critical := String.eqb res "ERROR" || String.eqb res "FATAL" in
  (forall e w1,
     answers UtcNow w = (Exc e, w1) -> x = (Exc e, w1, [UtcNow])) /\
  (forall now w1,
     answers UtcNow w = (Val now, w1) ->
     (forall e w2,
        answers (LogInsert (entry now)) w1 = (Exc e, w2) ->
        x = (Exc e, w2, [UtcNow; LogInsert (entry now)])) /\
     (forall w2,
        answers (LogInsert (entry now)) w1 = (Val tt, w2) ->
        (critical = false ->
         x = (Val tt, w2, [UtcNow; LogInsert (entry now)])) /\
        (critical = true ->
         forall r w3,
           answers (LogError line) w2 = (r, w3) ->
           x = (r, w3, [UtcNow; LogInsert (entry now); LogError line])))).
Proof.
  intros Ha Hres x entry line critical. subst x critical line.
  unfold S3PaymentLog.write.
  rewrite (truthy_str_some a Ha), (truthy_str_some res Hres). simpl.
  split.
  - intros e w1 Hclock. rewrite Hclock. reflexivity.
  - intros now w1 Hclock. rewrite Hclock. simpl. fold (entry now). split.
    + intros e w2 Hinsert. rewrite Hinsert. reflexivity.
    + intros w2 Hinsert. rewrite Hinsert. simpl. split.
      * intros Hcritical. rewrite Hcritical. reflexivity.
      * intros Hcritical r w3 Hline. rewrite Hcritical. simpl.
        fold (failure_line sid a reason). unfold failure_line in *.
        rewrite Hline. destruct r as [[] | e]; reflexivity.
Qed.

(** X14.  The shortcuts fix the result: [error] and [fatal] store an entry
    tagged ERROR or FATAL and add the failure line to the log file; [info],
    [success] and [warning] store an entry tagged accordingly and leave the
    log file alone.  Without a reason, or with an empty one, the failure
    line ends after "failed", with no brackets. *)
Theorem shortcuts_fix_the_result (sid : Z) (a : string)
    (reason : option string) (w : world E) :
  a <> "" ->
  let entry res := {| date := clock w; log_service_id := sid;
                      log_action := Some a; log_result := Some res;
                      log_reason := reason |} in
  let stored res := with_log (fun l => l ++ [entry res]) w in
  let mirrored res :=
    with_logfile (fun l => l ++ [failure_line sid a reason]) (stored res) in
  final (run oracle (S3PaymentLog.error sid (Some a) reason) w) = mirrored "ERROR" /\
  final (run oracle (S3PaymentLog.fatal sid (Some a) reason) w) = mirrored "FATAL" /\
  final (run oracle (S3PaymentLog.info sid (Some a) reason) w) = stored "INFO" /\
  final (run oracle (S3PaymentLog.success sid (Some a) reason) w) = stored "SUCCESS" /\
  final (run oracle (S3PaymentLog.warning sid (Some a) reason) w) = stored "WARNING" /\
  (reason = None \/ reason = Some "" ->
   failure_line sid a reason =
   "Payment Service #" +:+ pretty sid +:+ ": '" +:+ a +:+ "' failed").
Proof.
  intros Ha entry stored mirrored.
  unfold S3PaymentLog.error, S3PaymentLog.fatal, S3PaymentLog.info,
    S3PaymentLog.success, S3PaymentLog.warning.
  rewrite !(fun res H => run_write oracle sid a res reason w Ha H) by discriminate.
  repeat split.
  intros [-> | ->]; reflexivity.
Qed.

End MoreLogProperties.

(* ===================================================================== *)
(** ** Further properties: the database utilities *)
(* ===================================================================== *)

Section SelectProperties.

Context {R : Type}.

Lemma select_first_Some (query : R -> bool) (table : list R) (row : R) :
  select_first query table = Some row -> row ∈ table /\ query row = true.
Proof.
  unfold select_first. intros H%head_Some_elem_of.
  apply list_elem_of_filter in H as [Hq Hin]. split; [exact Hin |].
  now apply Is_true_true.
Qed.

Lemma select_first_None (query : R -> bool) (table : list R) :
  select_first query table = None <->
  forall row, row ∈ table -> query row = false.
Proof.
  unfold select_first. rewrite head_None. split.
  - intros Hnil row Hin. destruct (query row) eqn:Hq; [| reflexivity].
    assert (Hf : row ∈ filter (fun r => query r) table).
    { apply list_elem_of_filter. split; [now apply Is_true_true | exact Hin]. }
    rewrite Hnil in Hf. now apply elem_of_nil in Hf.
  - intros Hall. apply elem_of_nil_inv. intros row Hin.
    apply list_elem_of_filter in Hin as [Hq Hin].
    apply Is_true_true in Hq. rewrite (Hall row Hin) in Hq. discriminate.
Qed.

Lemma select_first_app (query : R -> bool) (t1 t2 : list R) :
  select_first query (t1 ++ t2) =
  match select_first query t1 with
  | Some row => Some row
  | None => select_first query t2
  end.
Proof.
  unfold select_first. rewrite filter_app.
  destruct (filter (fun r => query r) t1); reflexivity.
Qed.

Lemma select_first_singleton (query : R -> bool) (row : R) :
  select_first query [row] = if query row then Some row else None.
Proof.
  unfold select_first. rewrite filter_cons, filter_nil.
  destruct (query row); case_decide as Hd; try reflexivity.
  - destruct Hd. exact I.
  - destruct Hd.
Qed.

Lemma select_first_split (query : R -> bool) (pre post : list R) (row : R) :
  (forall r, r ∈ pre -> query r = false) -> query row = true ->
  select_first query (pre ++ row :: post) = Some row.
Proof.
  intros Hpre Hrow. rewrite select_first_app.
  rewrite (proj2 (select_first_None query pre) Hpre).
  change (row :: post) with ([row] ++ post).
  rewrite select_first_app, select_first_singleton, Hrow. reflexivity.
Qed.

End SelectProperties.

Section RegistrationProperties.

Lemma col_eq_spec (column : option Z) (z : Z) :
  col_eq column z = true <-> column = Some z.
Proof.
  destruct column as [z' |]; simpl; [| split; discriminate].
  rewrite Z.eqb_eq. split; congruence.
Qed.

Lemma col_is_false_spec (column : option bool) :
  col_is_false column = true <-> column = Some false.
Proof. destruct column as [[] |]; simpl; split; congruence. Qed.

Lemma link_query_spec (row : ServiceLink) (item service : Z) :
  col_eq (link_item_id row) item && col_eq (link_service_id row) service &&
  col_is_false (link_deleted row) = true <-> links row item service.
Proof.
  unfold links.
  rewrite !andb_true_iff, !col_eq_spec, col_is_false_spec. tauto.
Qed.

Lemma truthy_of_obool (o : option bool) :
  truthy (of_obool o) = true <-> o = Some true.
Proof. destruct o as [[] |]; simpl; split; congruence. Qed.

(** X16.  [has_product] answers with the [is_registered] column of the
    first link row of the product and the service that is not deleted, in
    the order in which the database returns the rows: whatever precedes
    that row links something else or is deleted, and whatever follows it is
    not looked at.  So the answer is true in Python's sense only if the
    table has such a row with [is_registered] set, and it is [False] when
    the table has no such row at all. *)
Theorem has_product_reads_live_link (db : database) (self : S3PaymentService)
    (product : Z) :
  (forall pre row post,
     fin_product_service db = pre ++ row :: post ->
     (forall r, r ∈ pre -> ~ links r product (service_id self)) ->
     links row product (service_id self) ->
     has_product db self product = of_obool (is_registered row)) /\
  (truthy (has_product db self product) = true ->
   exists row, row ∈ fin_product_service db /\
               links row product (service_id self) /\
               is_registered row = Some true) /\
  ((forall row, row ∈ fin_product_service db ->
                ~ links row product (service_id self)) ->
   has_product db self product = PyBool false).
Proof.
  unfold has_product. split; [| split].
  - intros pre row post Htable Hpre Hrow. rewrite Htable.
    rewrite select_first_split; [reflexivity | | now apply link_query_spec].
    intros r Hin. apply not_true_is_false. intros Hq.
    apply link_query_spec in Hq. exact (Hpre r Hin Hq).
  - destruct (select_first _ (fin_product_service db)) as [row |] eqn:Hsel;
      [| discriminate].
    apply select_first_Some in Hsel as [Hin Hq]. apply link_query_spec in Hq.
    intros Ht%truthy_of_obool. now exists row.
  - intros Hnone.
    destruct (select_first _ (fin_product_service db)) as [row |] eqn:Hsel;
      [| reflexivity].
    apply select_first_Some in Hsel as [Hin Hq]. apply link_query_spec in Hq.
    now destruct (Hnone row Hin).
Qed.

(** X17.  Adding a registered link row for a product and a service makes
    [has_product] true for them if the table had no live row for the pair.
    If it had one, that earlier row still decides and the answer does not
    change.  The answers for every other product or service, and those of
    [has_subscription_plan], do not change either. *)
Theorem added_product_link_is_seen (db : database) (self : S3PaymentService)
    (product : Z) :
  let row := {| link_item_id := Some product;
                link_service_id := Some (service_id self);
                link_deleted := Some false;
                is_registered := Some true |} in
  let db' := add_product_link row db in
  ((forall r, r ∈ fin_product_service db ->
              ~ links r product (service_id self)) ->
   has_product db' self product = PyBool true) /\
  ((exists r, r ∈ fin_product_service db /\ links r product (service_id self)) ->
   has_product db' self product = has_product db self product) /\
  (forall self' product',
     product' <> product \/ service_id self' <> service_id self ->
     has_product db' self' product' = has_product db self' product') /\
  (forall self' plan,
     has_subscription_plan db' self' plan = has_subscription_plan db self' plan).
Proof.
  intros row db'. subst db'. unfold has_product, add_product_link. simpl.
  split; [| split; [| split]].
  - intros Hnone. rewrite select_first_app.
    destruct (select_first _ (fin_product_service db)) as [r |] eqn:Hsel.
    + apply select_first_Some in Hsel as [Hin Hq]. apply link_query_spec in Hq.
      now destruct (Hnone r Hin).
    + rewrite select_first_singleton. simpl. rewrite !Z.eqb_refl. reflexivity.
  - intros (r & Hin & Hr). rewrite select_first_app.
    destruct (select_first _ (fin_product_service db)) as [r' |] eqn:Hsel;
      [reflexivity |].
    apply select_first_None with (row := r) in Hsel; [| exact Hin].
    apply link_query_spec in Hr. rewrite Hr in Hsel. discriminate.
  - intros self' product' Hother. rewrite select_first_app.
    destruct (select_first _ (fin_product_service db)) as [r' |] eqn:Hsel;
      [reflexivity |].
    rewrite select_first_singleton. simpl.
    destruct Hother as [Hp | Hs].
    + rewrite (proj2 (Z.eqb_neq product product')) by congruence. reflexivity.
    + rewrite (proj2 (Z.eqb_neq (service_id self) (service_id self')))
        by congruence.
      rewrite andb_false_r. reflexivity.
  - reflexivity.
Qed.

(** X18.  [has_subscription_plan] answers in the same way from
    [fin_subscription_plan_service]: with the [is_registered] column of the
    first row of the plan and the service that is not deleted, in the order
    in which the database returns the rows.  So it is true in Python's
    sense only if that table has a live row of the plan and the service
    with [is_registered] set, [False] if it has no live row for them, and
    it does not read the product links. *)
Theorem has_subscription_plan_reads_live_link (db : database)
    (self : S3PaymentService) (plan : Z) :
  (forall pre row post,
     fin_subscription_plan_service db = pre ++ row :: post ->
     (forall r, r ∈ pre -> ~ links r plan (service_id self)) ->
     links row plan (service_id self) ->
     has_subscription_plan db self plan = of_obool (is_registered row)) /\
  (truthy (has_subscription_plan db self plan) = true ->
   exists row, row ∈ fin_subscription_plan_service db /\
               links row plan (service_id self) /\
               is_registered row = Some true) /\
  ((forall row, row ∈ fin_subscription_plan_service db ->
                ~ links row plan (service_id self)) ->
   has_subscription_plan db self plan = PyBool false) /\
  (forall row,
     has_subscription_plan (add_product_link row db) self plan =
     has_subscription_plan db self plan).
Proof.
  unfold has_subscription_plan. split; [| split; [| split]].
  - intros pre row post Htable Hpre Hrow. rewrite Htable.
    rewrite select_first_split; [reflexivity | | now apply link_query_spec].
    intros r Hin. apply not_true_is_false. intros Hq.
    apply link_query_spec in Hq. exact (Hpre r Hin Hq).
  - destruct (select_first _ (fin_subscription_plan_service db))
      as [row |] eqn:Hsel; [| discriminate].
    apply select_first_Some in Hsel as [Hin Hq]. apply link_query_spec in Hq.
    intros Ht%truthy_of_obool. now exists row.
  - intros Hnone.
    destruct (select_first _ (fin_subscription_plan_service db))
      as [row |] eqn:Hsel; [| reflexivity].
    apply select_first_Some in Hsel as [Hin Hq]. apply link_query_spec in Hq.
    now destruct (Hnone row Hin).
  - reflexivity.
Qed.

End RegistrationProperties.

Section MerchantProperties.

(** The rows of the join in [get_merchant_name]. *)
Lemma merchant_join (db : database) (product : Z) (o : Organisation) :
  o ∈ (p ← fin_product db;
       o' ← org_organisation db;
       if Z.eqb (product_id p) product &&
          col_eq (organisation_id p) (org_id o') &&
          col_is_false (product_deleted p)
       then [o'] else []) <->
  exists p, p ∈ fin_product db /\ o ∈ org_organisation db /\
            product_id p = product /\ organisation_id p = Some (org_id o) /\
            product_deleted p = Some false.
Proof.
  rewrite list_elem_of_bind. split.
  - intros (p & Ho & Hp). apply list_elem_of_bind in Ho as (o' & Ho & Ho').
    destruct (_ && _ && _) eqn:Hq in Ho; [| now apply elem_of_nil in Ho].
    apply list_elem_of_singleton in Ho as ->.
    apply andb_true_iff in Hq as [Hq Hdel]. apply andb_true_iff in Hq as [Hid Horg].
    exists p. repeat split; try assumption.
    + now apply Z.eqb_eq.
    + now apply col_eq_spec.
    + now apply col_is_false_spec.
  - intros (p & Hp & Ho & Hid & Horg & Hdel). exists p. split; [| exact Hp].
    apply list_elem_of_bind. exists o. split; [| exact Ho].
    rewrite (proj2 (Z.eqb_eq _ _) Hid), (proj2 (col_eq_spec _ _) Horg),
      (proj2 (col_is_false_spec _) Hdel).
    now apply list_elem_of_singleton.
Qed.

(** X19.  [get_merchant_name] gives a name only if the product exists and
    is not deleted and its organisation exists under that name; it gives
    [None] when there is no such product.  With unique record ids it gives
    the name of the product's organisation, also when that organisation is
    itself marked as deleted: the query looks at the deleted flag of the
    product only. *)
Theorem merchant_name_of_live_product (db : database) (product : Z) :
  (forall name,
     get_merchant_name db product = Some name ->
     exists p o, p ∈ fin_product db /\ o ∈ org_organisation db /\
                 product_id p = product /\ product_deleted p = Some false /\
                 organisation_id p = Some (org_id o) /\ org_name o = Some name) /\
  ((forall p, p ∈ fin_product db -> product_id p = product ->
              product_deleted p <> Some false) ->
   get_merchant_name db product = None) /\
  (forall p o,
     p ∈ fin_product db -> o ∈ org_organisation db ->
     product_id p = product -> product_deleted p = Some false ->
     organisation_id p = Some (org_id o) ->
     (forall p', p' ∈ fin_product db -> product_id p' = product -> p' = p) ->
     (forall o', o' ∈ org_organisation db -> org_id o' = org_id o -> o' = o) ->
     get_merchant_name db product = org_name o).
Proof.
  unfold get_merchant_name. split; [| split].
  - intros name Hname.
    destruct (head _) as [o |] eqn:Hhead; [| discriminate].
    apply head_Some_elem_of, merchant_join in Hhead
      as (p & Hp & Ho & Hid & Horg & Hdel).
    now exists p, o.
  - intros Hnone.
    destruct (head _) as [o |] eqn:Hhead; [| reflexivity].
    apply head_Some_elem_of, merchant_join in Hhead
      as (p & Hp & Ho & Hid & Horg & Hdel).
    now destruct (Hnone p Hp Hid).
  - intros p o Hp Ho Hid Hdel Horg Hpunique Hounique.
    destruct (head _) as [o' |] eqn:Hhead.
    + apply head_Some_elem_of, merchant_join in Hhead
        as (p' & Hp' & Ho' & Hid' & Horg' & Hdel').
      rewrite (Hpunique p' Hp' Hid') in Horg'.
      rewrite Horg in Horg'. injection Horg' as Heq.
      now rewrite (Hounique o' Ho' (eq_sym Heq)).
    + apply head_None in Hhead.
      assert (Hin : o ∈ (p ← fin_product db;
                         o' ← org_organisation db;
                         if Z.eqb (product_id p) product &&
                            col_eq (organisation_id p) (org_id o') &&
                            col_is_false (product_deleted p)
                         then [o'] else []))
        by (apply merchant_join; now exists p).
      rewrite Hhead in Hin. now apply elem_of_nil in Hin.
Qed.

End MerchantProperties.

Section SubscriberProperties.

Lemma first_by_priority_least (rows : list Contact) (c : Contact) :
  first_by_priority rows = Some c ->
  c ∈ rows /\ forall c', c' ∈ rows -> priority c <= priority c'.
Proof.
  revert c. induction rows as [| r rows IH]; intros c; simpl; [discriminate |].
  destruct (first_by_priority rows) as [c0 |] eqn:Hrest.
  - destruct (IH c0 eq_refl) as [Hin Hleast].
    destruct (Z.ltb_spec (priority c0) (priority r)) as [Hlt | Hge];
      intros [= <-].
    + split; [now apply elem_of_cons; right |].
      intros c' [-> | Hc']%elem_of_cons; [lia | now apply Hleast].
    + split; [now apply elem_of_cons; left |].
      intros c' [-> | Hc']%elem_of_cons; [lia |].
      specialize (Hleast c' Hc'). lia.
  - intros [= <-]. split; [now apply elem_of_cons; left |].
    intros c' [-> | Hc']%elem_of_cons; [lia |].
    destruct rows as [| r' rows]; [now apply elem_of_nil in Hc' |].
    simpl in Hrest. destruct (first_by_priority rows) as [c1 |];
      [destruct (Z.ltb (priority c1) (priority r')) |]; discriminate.
Qed.

Lemma first_by_priority_None (rows : list Contact) :
  first_by_priority rows = None -> rows = [].
Proof.
  destruct rows as [| r rows]; [reflexivity |]. simpl.
  destruct (first_by_priority rows) as [c |];
    [destruct (Z.ltb (priority c) (priority r)) |]; discriminate.
Qed.

Lemma email_query_spec (db : database) (subscriber : Z) (c : Contact) :
  email_query db subscriber c = true <->
  contact_pe_id c = Some subscriber /\ contact_method c = Some "EMAIL" /\
  contact_deleted c = Some false /\
  ("private" ∈ pr_contacts_tabs db -> access c = Some 2 \/ access c = None).
Proof.
  unfold email_query.
  rewrite !andb_true_iff, col_eq_spec, col_eq_str_spec, col_is_false_spec.
  destruct (bool_decide ("private" ∈ pr_contacts_tabs db)) eqn:Hprivate.
  - apply bool_decide_eq_true in Hprivate.
    destruct (access c) as [a |]; [rewrite Z.eqb_eq |].
    + split.
      * intros [[[Hid Hm] Hd] ->]. repeat split; try assumption.
        intros _. now left.
      * intros (Hid & Hm & Hd & Ha). repeat split; try assumption.
        destruct (Ha Hprivate) as [Heq | Heq]; congruence.
    + split.
      * intros [[[Hid Hm] Hd] _]. repeat split; try assumption.
        intros _. now right.
      * intros (Hid & Hm & Hd & _). repeat split; assumption.
  - apply bool_decide_eq_false in Hprivate. split.
    + intros [[[Hid Hm] Hd] _]. repeat split; try assumption.
      intros Hp. contradiction.
    + intros (Hid & Hm & Hd & _). repeat split; assumption.
Qed.

(** X20.  [get_subscriber_info] fails with a message, and without a
    subscriber dict, in three cases: no entity of that id that is not
    deleted ("Unknown subscriber #id"), an entity whose type names no table
    ("Unknown subscriber type"), and an entity of a type that is neither an
    organisation nor a person ("Invalid subscriber type ...").  Whenever it
    returns, exactly one of the dict and the message is [None]. *)
Theorem subscriber_info_or_message (db : database) (subscriber : Z) :
  ((forall e, e ∈ pr_pentity db -> pe_id e = subscriber ->
              pe_deleted e <> Some false) ->
   get_subscriber_info db subscriber =
   Val (None, Some ("Unknown subscriber #" +:+ pretty subscriber))) /\
  (forall e rest,
     filter (fun e => Z.eqb (pe_id e) subscriber && col_is_false (pe_deleted e))
            (pr_pentity db) = e :: rest ->
     (instance_type e ∉ s3db_tables db ->
      get_subscriber_info db subscriber =
      Val (None, Some "Unknown subscriber type")) /\
     (instance_type e ∈ s3db_tables db ->
      instance_type e <> "org_organisation" -> instance_type e <> "pr_person" ->
      get_subscriber_info db subscriber =
      Val (None, Some ("Invalid subscriber type " +:+ instance_type e)))) /\
  (forall info message,
     get_subscriber_info db subscriber = Val (info, message) ->
     (info = None <-> is_Some message)).
Proof.
  unfold get_subscriber_info. split; [| split].
  - intros Hnone.
    destruct (select_first _ (pr_pentity db)) as [e |] eqn:Hsel; [| reflexivity].
    apply select_first_Some in Hsel as [Hin Hq].
    apply andb_true_iff in Hq as [Hid Hdel].
    apply Z.eqb_eq in Hid. apply col_is_false_spec in Hdel.
    now destruct (Hnone e Hin Hid).
  - intros e rest Hfilter. unfold select_first. rewrite Hfilter.
    change (head (e :: rest)) with (Some e). cbv iota beta.
    split.
    + intros Hno. rewrite bool_decide_eq_false_2 by exact Hno. reflexivity.
    + intros Hyes Horg Hperson. rewrite bool_decide_eq_true_2 by exact Hyes.
      rewrite (proj2 (String.eqb_neq _ _) Horg),
        (proj2 (String.eqb_neq _ _) Hperson). reflexivity.
  - intros info message.
    destruct (select_first _ (pr_pentity db)) as [e |].
    2: { intros [= <- <-]. split; [eauto | reflexivity]. }
    destruct (bool_decide (instance_type e ∈ s3db_tables db)); simpl negb;
      cbv iota.
    2: { intros [= <- <-]. split; [eauto | reflexivity]. }
    destruct (String.eqb (instance_type e) "org_organisation").
    { destruct (select_first _ (org_organisation db)); [| discriminate].
      destruct (first_by_priority _); intros [= <- <-];
        (split; [discriminate | intros [m Hm]; discriminate]). }
    destruct (String.eqb (instance_type e) "pr_person").
    { destruct (select_first _ (pr_person db)); [| discriminate].
      destruct (first_by_priority _); intros [= <- <-];
        (split; [discriminate | intros [m Hm]; discriminate]). }
    intros [= <- <-]. split; [eauto | reflexivity].
Qed.

(** X21.  What the subscriber dict holds.  It always has a first name; an
    email address in it is the value of a contact of the subscriber with
    method EMAIL that is not deleted and has the least priority of all such
    contacts; and where the deployment separates private from public
    contacts, that contact is never a private one: its access level is 2 or
    unset.  Without any such contact the dict has no email entry. *)
Theorem subscriber_email_is_public (db : database) (subscriber : Z)
    (info : gmap string pyval) (message : option string) :
  get_subscriber_info db subscriber = Val (Some info, message) ->
  is_Some (info !! "first_name") /\
  (forall v,
     info !! "email" = Some v ->
     exists c, c ∈ pr_contact db /\ v = of_ostr (value c) /\
       contact_pe_id c = Some subscriber /\ contact_method c = Some "EMAIL" /\
       contact_deleted c = Some false /\
       ("private" ∈ pr_contacts_tabs db -> access c = Some 2 \/ access c = None) /\
       forall c', c' ∈ pr_contact db -> email_query db subscriber c' = true ->
                  priority c <= priority c') /\
  ((forall c, c ∈ pr_contact db -> email_query db subscriber c = false) ->
   info !! "email" = None).
Proof.
  unfold get_subscriber_info.
  destruct (select_first _ (pr_pentity db)) as [e |]; [| discriminate].
  destruct (bool_decide (instance_type e ∈ s3db_tables db)); simpl negb;
    cbv iota; [| discriminate].
  assert (Hemail : forall base : gmap string pyval,
    base !! "email" = None -> is_Some (base !! "first_name") ->
    match first_by_priority (filter (email_query db subscriber) (pr_contact db)) with
    | Some row => Val (Some (<["email" := of_ostr (value row)]> base), None)
    | None => Val (Some base, None)
    end = Val (Some info, message) ->
    is_Some (info !! "first_name") /\
    (forall v,
       info !! "email" = Some v ->
       exists c, c ∈ pr_contact db /\ v = of_ostr (value c) /\
         contact_pe_id c = Some subscriber /\ contact_method c = Some "EMAIL" /\
         contact_deleted c = Some false /\
         ("private" ∈ pr_contacts_tabs db -> access c = Some 2 \/ access c = None) /\
         forall c', c' ∈ pr_contact db -> email_query db subscriber c' = true ->
                    priority c <= priority c') /\
    ((forall c, c ∈ pr_contact db -> email_query db subscriber c = false) ->
     info !! "email" = None)).
  { intros base Hbase Hfirst.
    destruct (first_by_priority _) as [row |] eqn:Hrow; intros [= <- <-].
    - apply first_by_priority_least in Hrow as [Hin Hleast].
      apply list_elem_of_filter in Hin as [Hq Hin]. apply Is_true_true in Hq.
      split; [| split].
      + rewrite lookup_insert_ne by discriminate. exact Hfirst.
      + intros v. rewrite lookup_insert_eq. intros [= <-].
        exists row. apply email_query_spec in Hq as (? & ? & ? & ?).
        repeat split; try assumption.
        intros c' Hc' Hq'. apply Hleast. apply list_elem_of_filter.
        split; [now apply Is_true_true | exact Hc'].
      + intros Hnone. rewrite (Hnone row Hin) in Hq. discriminate.
    - split; [exact Hfirst |]. split; [| intros _; exact Hbase].
      intros v Hv. rewrite Hbase in Hv. discriminate. }
  destruct (String.eqb (instance_type e) "org_organisation").
  { destruct (select_first _ (org_organisation db)) as [row |]; [| discriminate].
    apply Hemail.
    - rewrite lookup_insert_ne by discriminate. apply lookup_empty.
    - rewrite lookup_insert_eq. eauto. }
  destruct (String.eqb (instance_type e) "pr_person"); [| discriminate].
  destruct (select_first _ (pr_person db)) as [row |]; [| discriminate].
  apply Hemail.
  - rewrite !lookup_insert_ne by discriminate. apply lookup_empty.
  - rewrite lookup_insert_ne by discriminate. rewrite lookup_insert_eq. eauto.
Qed.

(** X22.  An entity that is registered as an organisation or as a person
    but has no row of its own that is not deleted makes
    [get_subscriber_info] raise instead of returning a message: it reads
    the name from the missing row. *)
Theorem subscriber_without_row_raises (db : database) (subscriber : Z)
    (e : PEntity) (rest : list PEntity) :
  filter (fun e => Z.eqb (pe_id e) subscriber && col_is_false (pe_deleted e))
         (pr_pentity db) = e :: rest ->
  instance_type e ∈ s3db_tables db ->
  (instance_type e = "org_organisation" ->
   (forall o, o ∈ org_organisation db -> org_pe_id o = Some subscriber ->
              org_deleted o <> Some false) ->
   get_subscriber_info db subscriber = Exc (AttributeError "name")) /\
  (instance_type e = "pr_person" ->
   (forall q, q ∈ pr_person db -> person_pe_id q = Some subscriber ->
              person_deleted q <> Some false) ->
   get_subscriber_info db subscriber = Exc (AttributeError "first_name")).
Proof.
  intros Hfilter Htable.
  split; intros Htype Hnone;
    unfold get_subscriber_info, select_first at 1;
    rewrite Hfilter; change (head (e :: rest)) with (Some e);
    cbv iota beta zeta; rewrite bool_decide_eq_true_2 by exact Htable;
    simpl negb; cbv iota.
  - rewrite (proj2 (String.eqb_eq _ _) Htype).
    destruct (select_first _ (org_organisation db)) as [row |] eqn:Hsel;
      [| reflexivity].
    apply select_first_Some in Hsel as [Hin Hq].
    apply andb_true_iff in Hq as [Hid Hdel].
    apply col_eq_spec in Hid. apply col_is_false_spec in Hdel.
    now destruct (Hnone row Hin Hid).
  - assert (Hnot : String.eqb (instance_type e) "org_organisation" = false)
      by (apply String.eqb_neq; rewrite Htype; discriminate).
    rewrite Hnot, (proj2 (String.eqb_eq _ _) Htype).
    destruct (select_first _ (pr_person db)) as [row |] eqn:Hsel;
      [| reflexivity].
    apply select_first_Some in Hsel as [Hin Hq].
    apply andb_true_iff in Hq as [Hid Hdel].
    apply col_eq_spec in Hid. apply col_is_false_spec in Hdel.
    now destruct (Hnone row Hin Hid).
Qed.

End SubscriberProperties.

(* ===================================================================== *)
(** ** Further runs on the concrete deployment *)
(* ===================================================================== *)

(** X1 at work: a base URL that ends in a slash and a path. *)
Lemma url_join_normalises_slashes_witness :
  let self' := Sample.with_base_url (Some "https://api.example.org//")
                 Fixture.service in
  base_url Fixture.service = Some "https://api.example.org/" /\
  "v1/ping" <> "" /\
  base_url self' = Some ("https://api.example.org/" +:+ "/") /\
  req_url (fst (http_request (L := Fixture.library) Fixture.service "GET"
                  (Some "v1/ping") [] PyNone "json" "json")) =
    "https://api.example.org/v1/ping" /\
  http_request (L := Fixture.library) self' "GET" (Some "/v1/ping") [] PyNone
               "json" "json" =
  http_request (L := Fixture.library) Fixture.service "GET" (Some "v1/ping") []
               PyNone "json" "json".
Proof.
  cbv zeta.
  assert (Hp : "v1/ping" <> "") by discriminate.
  destruct (url_join_normalises_slashes (L := Fixture.library) Fixture.service
              (Sample.with_base_url (Some "https://api.example.org//")
                 Fixture.service)
              "GET" "https://api.example.org/" "v1/ping" [] PyNone "json" "json"
              eq_refl Hp eq_refl) as (Hurl & _ & _ & Hsame).
  split; [reflexivity |]. split; [exact Hp |]. split; [reflexivity |].
  split; [rewrite Hurl; reflexivity | exact Hsame].
Defined.

(** X4 at work: the opener of a request with Basic authentication. *)
Lemma opener_handlers_follow_configuration_witness :
  let orc := Fixture.oracle (Val None) (Val (mkResponse 200 "{}")) None in
  let req :=
    fst (http_request (L := Fixture.library) Fixture.service "GET"
           (Some "/ping") [] PyNone "json" "json") in
  let o := opener_with (L := Fixture.library) Fixture.service req
             (PyStr "Basic") [basic_header (L := Fixture.library) Fixture.service] in
  In (OpenerOpen o req None)
     (trace (run orc
               (http (L := Fixture.library) Fixture.service "GET" (Some "/ping")
                     [] PyNone [] (PyStr "Basic") "json" "json")
               Fixture.world0)) /\
  handlers o =
    [HTTPBasicAuthHandler None "https://api.example.org/ping" "client" "secret"].
Proof.
  cbv zeta.
  assert (Hin : In (OpenerOpen
                      (opener_with (L := Fixture.library) Fixture.service
                         (fst (http_request (L := Fixture.library) Fixture.service
                                 "GET" (Some "/ping") [] PyNone "json" "json"))
                         (PyStr "Basic")
                         [basic_header (L := Fixture.library) Fixture.service])
                      (fst (http_request (L := Fixture.library) Fixture.service
                              "GET" (Some "/ping") [] PyNone "json" "json"))
                      None)
                   (trace (run (Fixture.oracle (Val None)
                                  (Val (mkResponse 200 "{}")) None)
                             (http (L := Fixture.library) Fixture.service "GET"
                                   (Some "/ping") [] PyNone [] (PyStr "Basic")
                                   "json" "json")
                             Fixture.world0))) by (left; reflexivity).
  split; [exact Hin |].
  rewrite (opener_handlers_follow_configuration (L := Fixture.library)
             _ _ _ _ _ _ _ _ _ _ _ _ _ _ Hin).
  reflexivity.
Defined.

(** X5 at work: Basic authentication with the credentials of the fixture. *)
Lemma basic_auth_needs_both_credentials_witness :
  let orc := Fixture.oracle (Val None) (Val (mkResponse 200 "{}")) None in
  let x :=
    run orc
      (http (L := Fixture.library) Fixture.service "GET" (Some "/ping") []
            PyNone [] (PyStr "Basic") "json" "json") Fixture.world0 in
  truthy_str (base_url Fixture.service) = true /\
  exists o req dat,
    trace x = [OpenerOpen o req dat] /\
    addheaders o = [("Authorization", "Basic client:secret")].
Proof.
  cbv zeta. split; [reflexivity |].
  destruct (basic_auth_needs_both_credentials (L := Fixture.library)
              (Fixture.oracle (Val None) (Val (mkResponse 200 "{}")) None)
              Fixture.service "GET" (Some "/ping") [] PyNone [] "json" "json"
              Fixture.world0 eq_refl) as (o & Htrace & _ & Hboth & _).
  destruct (Hboth eq_refl eq_refl) as [Hheaders _].
  eexists o, _, _. split; [exact Htrace |]. rewrite Hheaders. reflexivity.
Defined.

(** X6 at work: no authentication, although credentials are configured. *)
Lemma no_auth_adds_nothing_witness :
  let orc := Fixture.oracle (Val None) (Val (mkResponse 200 "{}")) None in
  let x :=
    run orc
      (http (L := Fixture.library) Fixture.service "GET" (Some "/ping") []
            PyNone [] (PyBool false) "json" "json") Fixture.world0 in
  truthy_str (base_url Fixture.service) = true /\
  truthy (PyBool false) = false /\
  exists o req dat,
    trace x = [OpenerOpen o req dat] /\
    addheaders o = [("User-agent", "Python-urllib/3.8")] /\
    handlers o = [].
Proof.
  cbv zeta. split; [reflexivity |]. split; [reflexivity |].
  destruct (no_auth_adds_nothing (L := Fixture.library)
              (Fixture.oracle (Val None) (Val (mkResponse 200 "{}")) None)
              Fixture.service "GET" (Some "/ping") [] PyNone [] "json" "json"
              Fixture.world0 (PyBool false) eq_refl eq_refl)
    as (o & Htrace & _ & Hheaders & Hnone).
  eexists o, _, _. split; [exact Htrace |]. split; [exact Hheaders |].
  destruct (handlers o) as [| [proto uri | realm uri user passwd] rest] eqn:Hh.
  - reflexivity.
  - exfalso. revert Hh. injection Htrace as <-. discriminate.
  - destruct (Hnone realm uri user passwd (or_introl eq_refl)).
Defined.

(** X7 at work: the expired token "T1" is replaced by "T2". *)
Lemma refreshed_token_is_sent_witness :
  let orc := Fixture.oracle (Val (Some "T2")) (Val (mkResponse 200 "{}")) None in
  let self := Fixture.with_token (Some "T1") (Some 500) Fixture.service in
  let x :=
    run orc
      (http (L := Fixture.library) self "GET" (Some "/ping") [] PyNone []
            (PyStr "Token") "json" "json") Fixture.world0 in
  truthy_str (base_url self) = true /\
  stale self (request_utcnow Fixture.world0) /\
  orc (GetAccessToken self) Fixture.world0 = (Val (Some "T2"), Fixture.world0) /\
  "T2" <> "" /\
  exists o req dat,
    trace x = [RequestUtcNow; GetAccessToken self; OpenerOpen o req dat] /\
    addheaders o = [("Authorization", "Bearer T2")].
Proof.
  cbv zeta.
  assert (Hstale : stale (Fixture.with_token (Some "T1") (Some 500) Fixture.service)
                         (request_utcnow Fixture.world0)).
  { right; right. exists 500. split; [reflexivity | discriminate]. }
  assert (Hne : "T2" <> "") by discriminate.
  destruct (refreshed_token_is_sent (L := Fixture.library)
              (Fixture.oracle (Val (Some "T2")) (Val (mkResponse 200 "{}")) None)
              (Fixture.with_token (Some "T1") (Some 500) Fixture.service)
              "GET" (Some "/ping") [] PyNone [] "json" "json" Fixture.world0
              "T2" Fixture.world0 eq_refl Hstale eq_refl Hne)
    as (Htrace & Hheaders & _).
  split; [reflexivity |]. split; [exact Hstale |]. split; [reflexivity |].
  split; [exact Hne |].
  eexists _, _, _. split; [exact Htrace | exact Hheaders].
Defined.

(** X8 at work: the factory on service 7 of the fixture. *)
Lemma adapter_factory_outcomes_witness :
  let orc := Fixture.oracle (Val None) (Exc (OtherError "unused")) None in
  orc (SelectService 7) Fixture.world0 =
    (Val [Fixture.service_row], Fixture.world0) /\
  outcome (run orc (adapter (L := Fixture.library) 7) Fixture.world0) =
    Val Fixture.paypal.
Proof.
  cbv zeta. split; [reflexivity |].
  destruct (adapter_factory_outcomes (L := Fixture.library)
              (Fixture.oracle (Val None) (Exc (OtherError "unused")) None)
              7 [Fixture.service_row] Fixture.world0 Fixture.world0 eq_refl)
    as (_ & _ & _ & Hpaypal & _).
  exact (proj1 (Hpaypal Fixture.service_row [] eq_refl eq_refl)).
Defined.

(** X9 at work: a request without a record. *)
Lemma confirm_rejects_missing_record_witness :
  let orc := Fixture.oracle (Val None) (Exc (OtherError "unused")) (Some "ACTIVE") in
  (record Sample.no_record = None \/
   exists rec, record Sample.no_record = Some rec /\
     (rec_service_id rec = None \/ rec_service_id rec = Some 0)) /\
  run orc (confirm_subscription (L := Fixture.library) Sample.no_record)
      Fixture.world0 =
  (Exc (HTTP 405 "Invalid record"), Fixture.world0, []).
Proof.
  cbv zeta. split; [left; reflexivity |].
  exact (proj2 (confirm_rejects_missing_record (L := Fixture.library)
                  (Fixture.oracle (Val None) (Exc (OtherError "unused"))
                     (Some "ACTIVE"))
                  Sample.no_record Fixture.world0 (or_introl eq_refl))).
Defined.

(** X10 at work: a subscription of service 8, which has no configuration. *)
Lemma confirm_rejects_unknown_service_witness :
  let orc := Fixture.oracle (Val None) (Exc (OtherError "unused")) (Some "ACTIVE") in
  let x :=
    run orc (confirm_subscription (L := Fixture.library) Sample.orphan_request)
        Fixture.world0 in
  record Sample.orphan_request = Some Sample.orphan /\
  rec_service_id Sample.orphan = Some 8 /\
  8 <> 0 /\
  orc (SelectService 8) Fixture.world0 = (Val [], Fixture.world0) /\
  outcome x = Exc (HTTP 405 "Invalid payment service") /\
  trace x = [SelectService 8].
Proof.
  cbv zeta.
  assert (Hsid : 8 <> 0) by discriminate.
  destruct (confirm_rejects_unknown_service (L := Fixture.library)
              (Fixture.oracle (Val None) (Exc (OtherError "unused")) (Some "ACTIVE"))
              Sample.orphan_request Sample.orphan 8 Fixture.world0 Fixture.world0
              eq_refl eq_refl Hsid [] eq_refl (or_introl eq_refl))
    as (Hout & _ & Htrace).
  split; [reflexivity |]. split; [reflexivity |]. split; [exact Hsid |].
  split; [reflexivity |]. split; [exact Hout | exact Htrace].
Defined.

(** X11 at work: a request that names another reference than the
    subscription has. *)
Lemma confirm_rejects_bad_reference_witness :
  let orc := Fixture.oracle (Val None) (Exc (OtherError "unused")) (Some "ACTIVE") in
  let x :=
    run orc (confirm_subscription (L := Fixture.library) Sample.forged_request)
        Fixture.world0 in
  record Sample.forged_request = Some Fixture.subscription /\
  rec_service_id Fixture.subscription = Some 7 /\
  7 <> 0 /\
  run orc (adapter (L := Fixture.library) 7) Fixture.world0 =
    (Val Fixture.paypal, Fixture.world0, [SelectService 7]) /\
  cls_verify_reference (cls Fixture.paypal) Sample.forged_request = false /\
  outcome x = Exc (HTTP 405 "Invalid reference") /\
  final x = Fixture.world0 /\
  trace x = [SelectService 7].
Proof.
  cbv zeta.
  assert (Hsid : 7 <> 0) by discriminate.
  destruct (confirm_rejects_bad_reference (L := Fixture.library)
              (Fixture.oracle (Val None) (Exc (OtherError "unused")) (Some "ACTIVE"))
              Sample.forged_request Fixture.subscription 7
              Fixture.world0 Fixture.world0 eq_refl eq_refl Hsid
              Fixture.paypal [SelectService 7] eq_refl eq_refl)
    as (Hout & Hfinal & Htrace).
  split; [reflexivity |]. split; [reflexivity |]. split; [exact Hsid |].
  split; [reflexivity |]. split; [reflexivity |].
  split; [exact Hout |]. split; [exact Hfinal | exact Htrace].
Defined.

(** X14 at work: [error] without a reason. *)
Lemma shortcuts_fix_the_result_witness :
  let orc := Fixture.oracle (Val None) (Exc (OtherError "unused")) None in
  "cancel" <> "" /\
  logfile (final (run orc (S3PaymentLog.error 7 (Some "cancel") None)
                      Fixture.world0)) =
    ["Payment Service #7: 'cancel' failed"] /\
  logfile (final (run orc (S3PaymentLog.warning 7 (Some "cancel") None)
                      Fixture.world0)) = [].
Proof.
  cbv zeta.
  assert (Ha : "cancel" <> "") by discriminate.
  destruct (shortcuts_fix_the_result
              (Fixture.oracle (Val None) (Exc (OtherError "unused")) None)
              7 "cancel" None Fixture.world0 Ha)
    as (Herror & _ & _ & _ & Hwarning & _).
  split; [exact Ha |]. split.
  - rewrite Herror. reflexivity.
  - rewrite Hwarning. reflexivity.
Defined.

(** X13 at work: the log table refuses the insert of a failure; the
    exception leaves [write] and the log file is not written either. *)
Lemma write_stops_at_first_failure_witness :
  let entry := {| date := 1000; log_service_id := 7;
                  log_action := Some "register"; log_result := Some "ERROR";
                  log_reason := Some "timeout" |} in
  let x :=
    exec Sample.refusing_store
      (S3PaymentLog.write 7 (Some "register") (Some "ERROR") (Some "timeout"))
      Fixture.world0 in
  "register" <> "" /\ "ERROR" <> "" /\
  x = (Exc (OtherError "IntegrityError"), Fixture.world0,
       [UtcNow; LogInsert entry]) /\
  logfile (final x) = [].
Proof.
  cbv zeta.
  assert (Ha : "register" <> "") by discriminate.
  assert (Hr : "ERROR" <> "") by discriminate.
  destruct (write_stops_at_first_failure Sample.refusing_store
              7 "register" "ERROR" (Some "timeout") Fixture.world0 Ha Hr)
    as [_ Hread].
  destruct (Hread 1000 Fixture.world0 eq_refl) as [Hrefused _].
  specialize (Hrefused (OtherError "IntegrityError") Fixture.world0 eq_refl).
  split; [exact Ha |]. split; [exact Hr |]. split; [exact Hrefused |].
  rewrite Hrefused. reflexivity.
Defined.

(** X21 at work: the private address has the better priority, and the
    public one is returned. *)
Lemma subscriber_email_is_public_witness :
  get_subscriber_info Sample.db 101 = Val (Some Sample.ada, None) /\
  exists c, c ∈ pr_contact Sample.db /\
            PyStr "ada@example.org" = of_ostr (value c) /\
            ("private" ∈ pr_contacts_tabs Sample.db ->
             access c = Some 2 \/ access c = None).
Proof.
  assert (Hinfo : get_subscriber_info Sample.db 101 = Val (Some Sample.ada, None))
    by (vm_compute; reflexivity).
  split; [exact Hinfo |].
  destruct (subscriber_email_is_public Sample.db 101 Sample.ada None Hinfo)
    as (_ & Hemail & _).
  destruct (Hemail (PyStr "ada@example.org") eq_refl)
    as (c & Hin & Hvalue & _ & _ & _ & Hpublic & _).
  exists c. split; [exact Hin |]. split; [exact Hvalue | exact Hpublic].
Defined.

(** X22 at work: entity 102 is registered as an organisation, and there
    is no organisation row for it. *)
Lemma subscriber_without_row_raises_witness :
  filter (fun e => Z.eqb (pe_id e) 102 && col_is_false (pe_deleted e))
         (pr_pentity Sample.db) = [Sample.ghost] /\
  instance_type Sample.ghost ∈ s3db_tables Sample.db /\
  get_subscriber_info Sample.db 102 = Exc (AttributeError "name").
Proof.
  assert (Hfilter :
    filter (fun e => Z.eqb (pe_id e) 102 && col_is_false (pe_deleted e))
           (pr_pentity Sample.db) = [Sample.ghost]) by reflexivity.
  assert (Htable : instance_type Sample.ghost ∈ s3db_tables Sample.db)
    by (apply (bool_decide_unpack _); vm_compute; exact I).
  split; [exact Hfilter |]. split; [exact Htable |].
  apply (proj1 (subscriber_without_row_raises Sample.db 102 Sample.ghost []
                  Hfilter Htable)); [reflexivity |].
  intros o Ho Hid.
  apply list_elem_of_singleton in Ho. subst o. discriminate Hid.
Defined.
